(** * Metaflow command-line plugins: tagging and Airflow export

    A shallow embedding of [metaflow/plugins/tagging_cli.py] and
    [metaflow/plugins/airflow/airflow_cli.py].

    Python strings are [string]; an optional value ([None] or a string) is
    [option string]; a Python list that may hold [None] is a list of options.
    Commands run in a small state-and-exception monad: the state holds the
    process-wide namespace selected through [namespace(...)], the files and
    the objects written, and the sequence of calls made to the collaborators
    (the Metaflow client, the packager, the datastore, the compiler, S3).
    What the collaborators answer is fixed by a [World] record.

    The interpreter is Python 3: the test [sys.version_info[0] < 3] in
    [format_tags] is false and the Python 2 re-encoding of the customized tag
    is not part of the embedding. *)

From Stdlib Require Import Ascii.
From stdpp Require Import gmap strings list sorting.

(** ** Python values and built-ins *)

Module Py.

(** The exceptions that the two modules raise, catch or let through. *)
Inductive exn : Type :=
| CommandException (msg : string)
| MetaflowException (msg : string)
| MetaflowNotFound
| MetaflowNamespaceMismatch
| AttributeError (msg : string)
| ValueError (msg : string)
| OtherError (msg : string).

Inductive result (A : Type) : Type :=
| Ok (a : A)
| Raise (e : exn).
Arguments Ok {A} a.
Arguments Raise {A} e.

(** [s.startswith(p)] *)
Definition startswith (s p : string) : bool := String.prefix p s.

(** [c * n] for a string [c] *)
Fixpoint str_mul (c : string) (n : nat) : string :=
  match n with
  | O => ""
  | S n' => c +:+ str_mul c n'
  end.

(** ["{0:w}".format(s)] for a string [s]: left-aligned, filled with
    spaces up to width [w], never cut. *)
Definition ljust (s : string) (w : nat) : string :=
  s +:+ str_mul " " (w - String.length s).

(** ["{0:w}  {1}".format(a, b)] *)
Definition format2 (w : nat) (a b : string) : string :=
  ljust a w +:+ "  " +:+ b.

(** [sep.join(ls)] *)
Definition join (sep : string) (ls : list string) : string :=
  String.concat sep ls.

(** [max(ns)]: raises [ValueError] on an empty sequence. *)
Definition max (ns : list nat) : result nat :=
  match ns with
  | [] => Raise (ValueError "max() arg is an empty sequence")
  | n :: ns' => Ok (foldl Nat.max n ns')
  end.

(** [sorted(ls)] on strings: ascending in the order of [str], which
    compares character codes from the left. *)
Definition sorted (ls : list string) : list string :=
  merge_sort String.le ls.

(** ["%s" % x] for [x] a string or [None]. *)
Definition str (x : option string) : string :=
  match x with
  | Some s => s
  | None => "None"
  end.

(** Truth value of a string or [None]: [None] and [""] are false. *)
Definition truthy (x : option string) : bool :=
  match x with
  | Some (String _ _) => true
  | _ => false
  end.

(** [zip(l1, l2)] *)
Definition zip {A B} (l1 : list A) (l2 : list B) : list (A * B) :=
  zip_with pair l1 l2.

Definition newline : string := String "010"%char "".
Definition tab : string := String "009"%char "".

(** [len(s.split("\n"))]: one more than the number of line feeds. *)
Fixpoint count_lines (s : string) : nat :=
  match s with
  | "" => 1
  | String c s' =>
      if decide (c = "010"%char) then S (count_lines s') else count_lines s'
  end.

(** The string holds no line feed. *)
Definition single_line (s : string) : Prop := count_lines s = 1.

(** *** Commands: state and exceptions

    A command takes the state to a result (a value or a raised exception)
    and the state it leaves; an exception keeps the effects made so far. *)
Definition M (St A : Type) : Type := St → result A * St.

Definition ret {St A} (a : A) : M St A := λ st, (Ok a, st).
Definition raise {St A} (e : exn) : M St A := λ st, (Raise e, st).
Definition bind {St A B} (m : M St A) (k : A → M St B) : M St B :=
  λ st, match m st with
        | (Ok a, st') => k a st'
        | (Raise e, st') => (Raise e, st')
        end.
(** [try: m except ...: handler]; a handler that has no clause for the
    exception raises it again. *)
Definition try_except {St A} (m : M St A) (handler : exn → M St A) : M St A :=
  λ st, match m st with
        | (Ok a, st') => (Ok a, st')
        | (Raise e, st') => handler e st'
        end.
(** A pure computation that may raise. *)
Definition lift {St A} (r : result A) : M St A := λ st, (r, st).

End Py.

Notation "'do' x <- m ; k" := (Py.bind m (λ x, k))
  (at level 10, x name, m at level 100, k at level 200,
   format "'[v' 'do'  x  <-  m ; '/' k ']'").
Notation "m ;; k" := (Py.bind m (λ _, k))
  (at level 100, k at level 200, right associativity).

(** ** [metaflow/plugins/tagging_cli.py] *)

Module Tagging.
Import Py.

(** [zip_longest(list1, list2)]: the shorter list is extended with
    [None] up to the length of the longer one, then the two are zipped.
    The source extends the list in place; its one caller passes the fresh
    lists that [sorted] returns, so nothing else sees the change. *)
Definition zip_longest (list1 list2 : list (option string))
  : list (option string * option string) :=
  if length list1 <? length list2 then
    Py.zip (list1 ++ replicate (length list2 - length list1) None) list2
  else if length list2 <? length list1 then
    Py.zip list1 (list2 ++ replicate (length list1 - length list2) None)
  else Py.zip list1 list2.

Definition header : string * string :=
  ("*system tags (immutable)*", "*customized tags*").

(** One turn of the loop of [format_tags]: [None] becomes [""]. *)
Definition format_row (stag_width : nat) (p : option string * option string)
  : string :=
  let stag := match p.1 with Some s => s | None => "" end in
  let ctag := match p.2 with Some s => s | None => "" end in
  format2 stag_width stag ctag.

(** What the loop of [format_tags] adds to [lines]: the data rows. *)
Definition rows (stag_width : nat) (system_tags customized_tags : list string)
  : list string :=
  format_row stag_width <$>
    zip_longest (Some <$> sorted system_tags) (Some <$> sorted customized_tags).

(** The list [lines] that [format_tags] builds, for given widths. *)
Definition format_lines (stag_width ctag_width : nat)
    (system_tags customized_tags : list string) : list string :=
  let lines := [format2 (stag_width + 2) header.1 header.2] in
  let lines := lines ++ [format2 stag_width (str_mul "-" stag_width)
                                            (str_mul "-" ctag_width)] in
  lines ++ rows stag_width system_tags customized_tags.

(** A data row as the description of the table words it, with each of the
    two columns padded to the width of the column. It is compared with
    [format_row] below and is not part of the program. *)
Definition format_row_padded (stag_width ctag_width : nat)
    (p : option string * option string) : string :=
  ljust (default "" p.1) stag_width +:+ "  " +:+ ljust (default "" p.2) ctag_width.

(** [format_tags(system_tags, customized_tags)]; the arguments are the
    tags in the order in which the iterable yields them. *)
Definition format_tags (system_tags customized_tags : list string)
  : result string :=
  match Py.max (String.length <$> (system_tags ++ [header.1])) with
  | Raise e => Raise e
  | Ok stag_width =>
      match Py.max (String.length <$> (customized_tags ++ [header.2])) with
      | Raise e => Raise e
      | Ok ctag_width =>
          Ok (join newline
                (format_lines stag_width ctag_width system_tags customized_tags))
      end
  end.

(** *** The Metaflow client, as far as the commands use it *)

(** What a [Run] object shows: its id, [tags] (all of them) and
    [system_tags], each in the order in which the set yields them. *)
Record RunData : Type := {
  id : string;
  tags : list string;
  system_tags : list string;
}.

(** What a [Flow] object shows: [latest_run] ([None] when it has no run)
    and [runs()]. *)
Record FlowData : Type := {
  latest_run : option RunData;
  runs : list RunData;
}.

(** The answers of the collaborators. [Flow(pathspec=p)] and
    [Run(pathspec=p)] depend on the namespace selected at the time of
    the call. *)
Record World : Type := {
  Flow_lookup : option string → string → result FlowData;
  Run_lookup : option string → string → result RunData;
  identity : string;
}.

(** [obj]: the context object of the command line; [obj.flow.name]. *)
Record Obj : Type := { flow_name : string }.

Inductive call : Type :=
| CallNamespace (ns : option string)
| CallFlow (pathspec : string)
| CallRun (pathspec : string)
| CallRuns
| CallEcho (text : string).

Record State : Type := {
  current_namespace : option string;
  calls : list call;
}.

Definition log (c : call) (st : State) : State :=
  {| current_namespace := current_namespace st; calls := calls st ++ [c] |}.

(** A command that only adds to the record of calls. *)
Definition appends {A} (m : M State A) : Prop :=
  ∀ st, ∃ cs, calls (m st).2 = calls st ++ cs.

(** Python sets, as lists without order: [a.difference(b)], [a.union(b)]. *)
Definition difference (a b : list string) : list string := list_difference a b.
Definition union (a b : list string) : list string := list_union a b.

Section Commands.
Variable w : World.

(** [namespace(ns)] *)
Definition namespace (ns : option string) : M State unit :=
  λ st, (Ok (), {| current_namespace := ns;
                   calls := calls st ++ [CallNamespace ns] |}).

(** [Flow(pathspec=p)] *)
Definition Flow (pathspec : string) : M State FlowData :=
  λ st, (Flow_lookup w (current_namespace st) pathspec, log (CallFlow pathspec) st).

(** [Run(pathspec=p)] *)
Definition Run (pathspec : string) : M State RunData :=
  λ st, (Run_lookup w (current_namespace st) pathspec, log (CallRun pathspec) st).

(** [resolve_identity()] *)
Definition resolve_identity : M State string := ret (identity w).

(** [obj.echo(text)] *)
Definition echo (text : string) : M State unit :=
  λ st, (Ok (), log (CallEcho text) st).

Definition print_tags (metaflow_run_client : RunData) : result string :=
  let system_tags := system_tags metaflow_run_client in
  let customized_tags := difference (tags metaflow_run_client) system_tags in
  format_tags system_tags customized_tags.

Definition check_run_id (user_namespace : option string) (flow_name : string)
    (run_id : option string) : M State unit :=
  match run_id with
  | None =>
      do flow <- Flow flow_name;
      match latest_run flow with
      | None => raise (AttributeError "'NoneType' object has no attribute 'id'")
      | Some latest =>
          let latest_run_id := id latest in
          let msg :=
            "Please run with --run-id: tag add --run-id TEXT YOUR-TAGS" +:+ newline +:+
            ("Flow " +:+ flow_name +:+ "'s latest run has run-id *" +:+ latest_run_id
             +:+ "* under namespace " +:+ str user_namespace) in
          raise (CommandException msg)
      end
  | Some _ => ret ()
  end.

Definition is_prod_token (token : option string) : bool :=
  match token with
  | None => false
  | Some token => startswith token "production:"
  end.

Definition scheduled_run_msg : string :=
  "Modifying a scheduled run's tags is currently not allowed.".

(** The message of the run's namespace mismatch, from the run's tags. *)
Definition mismatch_msg (run_name : string) (user_namespace : option string)
    (run_tags : list string) : string :=
  let msg := "Run *" +:+ run_name +:+ "* does not belong to " +:+
             ("namespace *" +:+ str user_namespace +:+ "*." +:+ newline) in
  let user_tags := filter (λ tag, startswith tag "user:" = true) run_tags in
  match user_tags with
  | [] => msg
  | _ =>
      let msg := msg +:+
        ("You can choose any of the following tags associated with *" +:+ run_name
         +:+ "* " +:+ "to use with option *--namespace*" +:+ newline) in
      msg +:+ join newline ((λ tag, tab +:+ "*" +:+ tag +:+ "*") <$> user_tags)
  end.

Definition obtain_metaflow_run_client (obj : Obj) (run_id : option string)
    (user_namespace : option string) : M State RunData :=
  if is_prod_token user_namespace then
    raise (CommandException scheduled_run_msg)
  else
  let flow_name := flow_name obj in
  try_except (namespace user_namespace;; do _ <- Flow flow_name; ret ())
    (λ e, match e with
          | MetaflowNotFound =>
              raise (CommandException
                ("Flow *" +:+ flow_name +:+ "* does not exist " +:+
                 "in any namespace." +:+ newline +:+
                 "Please run the flow before tagging."))
          | MetaflowNamespaceMismatch =>
              raise (CommandException
                ("Flow *" +:+ flow_name +:+ "* does not belong to " +:+
                 ("namespace *" +:+ str user_namespace +:+ "*." +:+ newline) +:+
                 "Check typos if you used option --namespace."))
          | _ => raise e
          end);;
  check_run_id user_namespace flow_name run_id;;
  let run_name := flow_name +:+ "/" +:+ str run_id in
  try_except (namespace user_namespace;; Run run_name)
    (λ e, match e with
          | MetaflowNotFound =>
              raise (CommandException
                ("Run *" +:+ run_name +:+ "* does not exist " +:+
                 ("in any namespace." +:+ newline +:+ "Please check your --run-id.")))
          | MetaflowNamespaceMismatch =>
              namespace None;;
              do metaflow_client <- Run run_name;
              let run_tags := tags metaflow_client in
              if existsb (λ tag, is_prod_token (Some tag)) run_tags then
                raise (CommandException scheduled_run_msg)
              else
                raise (CommandException (mismatch_msg run_name user_namespace run_tags))
          | _ => raise e
          end).

Definition list_runs (obj : Obj) (user_namespace : option string)
  : M State (list RunData) :=
  namespace user_namespace;;
  do metaflow_client <- Flow (flow_name obj);
  λ st, (Ok (runs metaflow_client), log CallRuns st).

(** The messages of the two checks that open [tag_list]. *)
Definition no_option_msg : string :=
  "Please use one of the options --run-id / --all / --my-runs." +:+ newline +:+
  "You can run the flow with commands 'tag list --help' " +:+
  "to check the meaning of the three options.".

Definition all_with_my_runs_msg : string :=
  "Option --all cannot be used together with --my-runs." +:+ newline +:+
  "You can run the flow with commands 'tag list --help' " +:+
  "to check the meaning of the two options.".

Definition tag_list (obj : Obj) (run_id : option string)
    (hide_system_tags list_all my_runs : bool) : M State unit :=
  if bool_decide (run_id = None) && negb list_all && negb my_runs then
    raise (CommandException no_option_msg)
  else if list_all && my_runs then
    raise (CommandException all_with_my_runs_msg)
  else
  do sets <-
    (if list_all || my_runs then
       do user_namespace <-
         (if my_runs then do i <- resolve_identity; ret (Some i) else ret None);
       do runs <- list_runs obj user_namespace;
       ret (foldl (λ (acc : list string * list string) run,
                     (union acc.1 (system_tags run),
                      union acc.2 (difference (tags run) (system_tags run))))
                  ([], []) runs)
     else
       do metaflow_run_client <- obtain_metaflow_run_client obj run_id None;
       let system_tags := system_tags metaflow_run_client in
       ret (system_tags, difference (tags metaflow_run_client) system_tags));
  let system_tags := sets.1 in
  let customized_tags := sets.2 in
  if hide_system_tags then
    do text <- lift (format_tags [] customized_tags); echo text
  else
    do text <- lift (format_tags system_tags customized_tags); echo text.

End Commands.

End Tagging.

(** ** [metaflow/plugins/airflow/airflow_cli.py] *)

Module AirflowCli.
Import Py.

(** The characters that the class of [VALID_NAME] leaves out of its
    complement: letters, digits, [_], [-] and [.]. *)
Definition name_char (c : ascii) : bool :=
  let n := nat_of_ascii c in
  ((97 <=? n) && (n <=? 122)) || ((65 <=? n) && (n <=? 90)) ||
  ((48 <=? n) && (n <=? 57)) ||
  bool_decide (c = "_"%char) || bool_decide (c = "-"%char) ||
  bool_decide (c = "."%char).

(** [VALID_NAME.search(name)] as a truth value: some character of
    [name] matches ["[^a-zA-Z0-9_\-\.]"]. *)
Definition VALID_NAME_search (name : string) : bool :=
  existsb (λ c, negb (name_char c)) (String.list_ascii_of_string name).

(** [current]: [current.get("project_name")], [current.project_flow_name]
    and [current.flow_name]. *)
Record Current : Type := {
  project_name : option string;
  project_flow_name : string;
  flow_name : string;
}.

(** The arguments with which [make_flow] builds the [Airflow] object. *)
Record Airflow : Type := {
  name : string;
  package_sha : string;
  package_url : string;
  tags : list string;
  namespace : option string;
  max_workers : Z;
  worker_pool : option string;
  username : string;
  is_project : bool;
  file_path : option string;
  set_active : bool;
}.

(** The answers of the collaborators. *)
Record World : Type := {
  current : Current;
  attach_decorators : result ();
  init_step_decorators : result ();
  package_blob : result string;
  save_data : string → result (string * string);
  get_username : string;
  compile : Airflow → result string;
  s3_put : string → string → result ();
  open_w : string → result ();
}.

Inductive call : Type :=
| CallAttachDecorators
| CallInitStepDecorators
| CallMetaflowPackage
| CallSaveData (blob : string)
| CallAirflow (args : Airflow)
| CallCompile (args : Airflow)
| CallEchoAlways (text : string)
| CallS3Put (url data : string)
| CallOpen (path : string)
| CallWrite (path data : string).

(** The calls made so far, the local files and the objects in S3. *)
Record State : Type := {
  calls : list call;
  files : gmap string string;
  objects : gmap string string;
}.

Definition log (c : call) (st : State) : State :=
  {| calls := calls st ++ [c]; files := files st; objects := objects st |}.

(** The calls of [make_flow] that come before the DAG name is resolved:
    the decorators, the package and its upload. *)
Definition before_name (c : call) : bool :=
  match c with
  | CallAttachDecorators | CallInitStepDecorators
  | CallMetaflowPackage | CallSaveData _ => true
  | _ => false
  end.

(** The calls that build the package or upload it to the datastore. *)
Definition packaging (c : call) : bool :=
  match c with
  | CallMetaflowPackage | CallSaveData _ => true
  | _ => false
  end.

(** A call to a collaborator: recorded, then answered. *)
Definition external {A} (c : call) (answer : result A) : M State A :=
  λ st, (answer, log c st).

Definition not_supported_msg : string :=
  "--name is not supported for @projects. " +:+ "Use --branch instead.".

Section Commands.
Variable w : World.

Definition resolve_dag_name (name : option string) : M State (string * bool) :=
  let project := project_name (current w) in
  if truthy project then
    if truthy name then
      raise (MetaflowException not_supported_msg)
    else
      let dag_name := project_flow_name (current w) in
      let is_project := true in
      ret (dag_name, is_project)
  else
    if truthy name && VALID_NAME_search (default "" name) then
      raise (MetaflowException
               ("Name '" +:+ str name +:+ "' contains invalid characters."))
    else
      let dag_name := if truthy name then default "" name
                      else flow_name (current w) in
      let is_project := false in
      ret (dag_name, is_project).

Definition make_flow (dag_name : option string) (tags : list string)
    (namespace : option string) (max_workers : Z) (is_project : bool)
    (file_path : option string) (worker_pool : option string)
    (set_active : bool) : M State Airflow :=
  external CallAttachDecorators (attach_decorators w);;
  external CallInitStepDecorators (init_step_decorators w);;
  do blob <- external CallMetaflowPackage (package_blob w);
  do saved <- external (CallSaveData blob) (save_data w blob);
  let package_url := saved.1 in
  let package_sha := saved.2 in
  do resolved <- resolve_dag_name dag_name;
  let flow_name := resolved.1 in
  let is_project := resolved.2 in
  let flow := {| name := flow_name; package_sha := package_sha;
                 package_url := package_url; tags := tags;
                 namespace := namespace; max_workers := max_workers;
                 worker_pool := worker_pool; username := get_username w;
                 is_project := is_project; file_path := file_path;
                 set_active := set_active |} in
  external (CallAirflow flow) (Ok flow).

(** [obj.echo_always(text)] *)
Definition echo_always (text : string) : M State () :=
  external (CallEchoAlways text) (Ok ()).

(** [with S3() as s3: s3.put(url, data)] *)
Definition S3_put (url data : string) : M State () :=
  λ st, match s3_put w url data with
        | Ok _ => (Ok (), {| calls := calls st ++ [CallS3Put url data];
                             files := files st;
                             objects := <[url := data]> (objects st) |})
        | Raise e => (Raise e, log (CallS3Put url data) st)
        end.

(** [open(path, "w")]: the file is created or emptied. *)
Definition open_write (path : string) : M State () :=
  λ st, match open_w w path with
        | Ok _ => (Ok (), {| calls := calls st ++ [CallOpen path];
                             files := <[path := ""]> (files st);
                             objects := objects st |})
        | Raise e => (Raise e, log (CallOpen path) st)
        end.

(** [f.write(data)] on the file opened at [path]. *)
Definition write (path data : string) : M State () :=
  λ st, (Ok (), {| calls := calls st ++ [CallWrite path data];
                   files := <[path := default "" (files st !! path) +:+ data]> (files st);
                   objects := objects st |}).

Definition create (file_path : option string) (tags : list string)
    (name : option string) (set_active : bool) (user_namespace : option string)
    (max_workers : Z) (worker_pool : option string) : M State () :=
  do flow <- make_flow name tags user_namespace max_workers false
                       file_path worker_pool set_active;
  do compiled_dag_file <- external (CallCompile flow) (compile w flow);
  match file_path with
  | None => echo_always compiled_dag_file
  | Some file_path =>
      if startswith file_path "s3://" then
        S3_put file_path compiled_dag_file
      else
        open_write file_path;;
        write file_path compiled_dag_file
  end.

End Commands.

End AirflowCli.

(** ** Sample collaborators, used to run the commands on concrete inputs *)

Module Sample.
Import Py.

(** A flow [F] with a run [7] of user [bob] and a scheduled run [8]. *)
Module Tags.
Import Tagging.

Definition run7 : RunData :=
  {| id := "7";
     tags := ["user:bob"; "stage:dev"; "runtime:dev"];
     system_tags := ["runtime:dev"] |}.

Definition run8 : RunData :=
  {| id := "8";
     tags := ["production:F-0-abcd"; "user:svc"; "runtime:prod"];
     system_tags := ["runtime:prod"] |}.

(** An object is in the namespace when no namespace is selected or
    the namespace is one of its tags. *)
Definition in_namespace (ns : option string) (run : RunData) : bool :=
  match ns with
  | None => true
  | Some n => bool_decide (n ∈ tags run)
  end.

Definition world : World :=
  {| Flow_lookup ns pathspec :=
       if bool_decide (pathspec = "F") then
         match filter (λ r, in_namespace ns r = true) [run8; run7] with
         | [] => Raise MetaflowNamespaceMismatch
         | r :: rs => Ok {| latest_run := Some r; runs := r :: rs |}
         end
       else Raise MetaflowNotFound;
     Run_lookup ns pathspec :=
       let found run :=
         if in_namespace ns run then Ok run else Raise MetaflowNamespaceMismatch in
       if bool_decide (pathspec = "F/7") then found run7
       else if bool_decide (pathspec = "F/8") then found run8
       else Raise MetaflowNotFound;
     identity := "user:alice" |}.

Definition obj : Obj := {| flow_name := "F" |}.

Definition start : State := {| current_namespace := Some "user:alice"; calls := [] |}.
End Tags.

(** A flow [F] of project [demo]; every collaborator answers. *)
Module Dag.
Import AirflowCli.

Definition world (project : option string) : World :=
  {| current := {| project_name := project;
                   project_flow_name := "demo.user.alice.F";
                   flow_name := "F" |};
     attach_decorators := Ok ();
     init_step_decorators := Ok ();
     package_blob := Ok "blob";
     save_data blob := Ok ("s3://datastore/F/data/ab/abcd", "abcd");
     get_username := "alice";
     compile flow := Ok ("# dag " +:+ name flow);
     s3_put url data := Ok ();
     open_w path := Ok () |}.

Definition start : State :=
  {| calls := []; files := {["dag.py" := "old content"]}; objects := ∅ |}.

(** What [make_flow] builds and leaves, without project and name. *)
Definition flow (file_path : option string) : Airflow :=
  {| name := "F"; package_sha := "abcd";
     package_url := "s3://datastore/F/data/ab/abcd"; tags := [];
     namespace := None; max_workers := 100; worker_pool := None;
     username := "alice"; is_project := false; file_path := file_path;
     set_active := false |}.

Definition made (file_path : option string) : State :=
  {| calls := [CallAttachDecorators; CallInitStepDecorators; CallMetaflowPackage;
               CallSaveData "blob"; CallAirflow (flow file_path)];
     files := files start; objects := objects start |}.
End Dag.

End Sample.

(** ** [tag add], [tag remove] and [tag replace]

    The calls of the tag methods are recorded apart from the calls of the
    lookup layer.  An echo is recorded by its text; the stream it goes to
    ([err=False] in [add], the default in [remove] and [replace]) is not. *)

Module TagCommands.
Import Py Tagging.

(** The methods of a [Run] object that change its tags, with their
    arguments: [add_tag(tags)], [remove_tag(tags)] and
    [replace_tag(tags_to_remove, tags_to_add)]. *)
Inductive method : Type :=
| add_tag (tags : list string)
| remove_tag (tags : list string)
| replace_tag (tags_to_remove tags_to_add : list string).

(** The client together with these methods: [call_method run m] is what
    the [Run] object shows once the call has returned, or the exception
    that the call raises. *)
Record World : Type := {
  client : Tagging.World;
  call_method : RunData → method → result RunData;
}.

(** The state of the lookups and the echoes, and the method calls made. *)
Record State : Type := {
  session : Tagging.State;
  method_calls : list (RunData * method);
}.

(** A command of the lookup layer, run on the [session]. *)
Definition on_session {A} (m : M Tagging.State A) : M State A :=
  λ st, ((m (session st)).1,
         {| session := (m (session st)).2; method_calls := method_calls st |}).

Section Commands.
Variable w : World.

(** [run.add_tag(...)], [run.remove_tag(...)], [run.replace_tag(...)] *)
Definition invoke (run : RunData) (m : method) : M State RunData :=
  λ st, (call_method w run m,
         {| session := session st; method_calls := method_calls st ++ [(run, m)] |}).

(** [resolve_identity() if user_namespace is None else user_namespace] *)
Definition default_namespace (user_namespace : option string)
  : M State (option string) :=
  match user_namespace with
  | None => do i <- on_session (resolve_identity (client w)); ret (Some i)
  | Some _ => ret user_namespace
  end.

Definition add (obj : Obj) (run_id user_namespace : option string)
    (tags : list string) : M State () :=
  do user_namespace <- default_namespace user_namespace;
  do metaflow_run_client <-
    on_session (obtain_metaflow_run_client (client w) obj run_id user_namespace);
  do metaflow_run_client <- invoke metaflow_run_client (add_tag tags);
  on_session (echo "Operation successful. New tags:");;
  do text <- lift (print_tags metaflow_run_client);
  on_session (echo text).

Definition remove (obj : Obj) (run_id user_namespace : option string)
    (tags : list string) : M State () :=
  do user_namespace <- default_namespace user_namespace;
  do metaflow_run_client <-
    on_session (obtain_metaflow_run_client (client w) obj run_id user_namespace);
  do metaflow_run_client <- invoke metaflow_run_client (remove_tag tags);
  on_session (echo "Operation successful. New tags:");;
  do text <- lift (print_tags metaflow_run_client);
  on_session (echo text).

(** [tags] holds exactly two values ([nargs=2]): [tags[0]] and [tags[1]]. *)
Definition replace (obj : Obj) (run_id user_namespace : option string)
    (tags : string * string) : M State () :=
  do user_namespace <- default_namespace user_namespace;
  do metaflow_run_client <-
    on_session (obtain_metaflow_run_client (client w) obj run_id user_namespace);
  do metaflow_run_client <- invoke metaflow_run_client (replace_tag [tags.1] [tags.2]);
  on_session (echo "Operation successful. New tags:");;
  do text <- lift (print_tags metaflow_run_client);
  on_session (echo text).

(** The three sub-commands of the group [tag] that change tags, with
    their positional arguments. *)
Inductive subcommand : Type :=
| Add (tags : list string)
| Remove (tags : list string)
| Replace (tags : string * string).

(** The group [tag] runs the function of the sub-command named. *)
Definition tag (c : subcommand) (obj : Obj) (run_id user_namespace : option string)
  : M State () :=
  match c with
  | Add tags => add obj run_id user_namespace tags
  | Remove tags => remove obj run_id user_namespace tags
  | Replace tags => replace obj run_id user_namespace tags
  end.

End Commands.

(** The method that a sub-command calls on the run. *)
Definition method_of (c : subcommand) : method :=
  match c with
  | Add tags => add_tag tags
  | Remove tags => remove_tag tags
  | Replace tags => replace_tag [tags.1] [tags.2]
  end.

(** The namespace under which a sub-command resolves the run. *)
Definition effective_namespace (w : World) (user_namespace : option string)
  : option string :=
  match user_namespace with
  | None => Some (identity (client w))
  | Some _ => user_namespace
  end.

(** The echoes among the calls. *)
Definition echoes (cs : list call) : list string :=
  omap (λ c, match c with CallEcho text => Some text | _ => None end) cs.

(** A command of the lookup layer that echoes nothing. *)
Definition silent {A} (m : M Tagging.State A) : Prop :=
  ∀ st, echoes (calls (m st).2) = echoes (calls st).

End TagCommands.

(** ** More sample collaborators *)

Module Sample2.
Import Py Tagging TagCommands.

(** Tags are added, removed and replaced as sets. *)
Definition world : TagCommands.World :=
  {| client := Sample.Tags.world;
     call_method run m :=
       let change (remove add : list string) :=
         {| id := id run;
            tags := Tagging.union (Tagging.difference (tags run) remove) add;
            system_tags := system_tags run |} in
       match m with
       | add_tag ts => Ok (change [] ts)
       | remove_tag ts => Ok (change ts [])
       | replace_tag old new => Ok (change old new)
       end |}.

Definition start : TagCommands.State :=
  {| session := Sample.Tags.start; method_calls := [] |}.

(** A client that finds the flow, refuses every run under a namespace
    and fails where no namespace is selected. *)
Definition unavailable : Tagging.World :=
  {| Flow_lookup ns pathspec :=
       Ok {| latest_run := Some Sample.Tags.run7; runs := [Sample.Tags.run7] |};
     Run_lookup ns pathspec :=
       match ns with
       | Some _ => Raise MetaflowNamespaceMismatch
       | None => Raise (OtherError "service unavailable")
       end;
     identity := "user:alice" |}.

(** A client whose every lookup fails. *)
Definition down : Tagging.World :=
  {| Flow_lookup ns pathspec := Raise (OtherError "service unavailable");
     Run_lookup ns pathspec := Raise (OtherError "service unavailable");
     identity := "user:alice" |}.

End Sample2.

(** The calls by which [create] hands out the artifact. *)
Module AirflowCalls.
Import AirflowCli.

Definition output_call (c : call) : bool :=
  match c with
  | CallEchoAlways _ | CallS3Put _ _ | CallOpen _ | CallWrite _ _ => true
  | _ => false
  end.

End AirflowCalls.

(** A flow [F] whose compilation fails. *)
Module Sample3.
Import Py AirflowCli.

Definition world : World :=
  {| current := {| project_name := None;
                   project_flow_name := "";
                   flow_name := "F" |};
     attach_decorators := Ok ();
     init_step_decorators := Ok ();
     package_blob := Ok "blob";
     save_data blob := Ok ("s3://datastore/F/data/ab/abcd", "abcd");
     get_username := "alice";
     compile flow := Raise (OtherError "unsupported step");
     s3_put url data := Ok ();
     open_w path := Ok () |}.

Definition flow (name : string) (file_path : option string) : Airflow :=
  {| name := name; package_sha := "abcd";
     package_url := "s3://datastore/F/data/ab/abcd"; tags := ["team:x"];
     namespace := Some "user:alice"; max_workers := 100; worker_pool := None;
     username := "alice"; is_project := false; file_path := file_path;
     set_active := true |}.

End Sample3.

(** * Properties *)

(** ** The built-ins *)

Module PyFacts.
Import Py.

Lemma Ok_inj {A} (a b : A) : Ok a = Ok b → a = b.
Proof. congruence. Qed.

Lemma max_cons n ns : Py.max (n :: ns) = Ok (max_list (n :: ns)).
Proof.
  unfold Py.max. f_equal. revert n.
  induction ns as [|m ns IH]; intros n; simpl.
  - lia.
  - rewrite IH. simpl. lia.
Qed.

(** On a sequence that is not empty [max] returns, and returns the
    greatest element. *)
Lemma max_nonempty ns : ns ≠ [] → Py.max ns = Ok (max_list ns).
Proof. destruct ns; [done|]. intros _. apply max_cons. Qed.

Lemma string_length_app (a b : string) :
  String.length (a +:+ b) = String.length a + String.length b.
Proof. induction a; simpl; [done|]. by rewrite IHa. Qed.

Lemma string_app_assoc (a b c : string) : (a +:+ b) +:+ c = a +:+ (b +:+ c).
Proof.
  induction a as [|x a IH]; [done|].
  change ((String x a +:+ b) +:+ c) with (String x ((a +:+ b) +:+ c)).
  change (String x a +:+ (b +:+ c)) with (String x (a +:+ (b +:+ c))).
  by rewrite IH.
Qed.

Lemma length_str_mul_1 (c : ascii) n : String.length (str_mul (String c "") n) = n.
Proof. induction n; simpl; [done|]. rewrite string_length_app. simpl. by rewrite IHn. Qed.

(** Padding reaches the width and keeps longer strings whole. *)
Lemma length_ljust s w : String.length (ljust s w) = String.length s `max` w.
Proof. unfold ljust. rewrite string_length_app, length_str_mul_1. lia. Qed.

Lemma sorted_Permutation ls : sorted ls ≡ₚ ls.
Proof. apply merge_sort_Permutation. Qed.

Lemma sorted_Sorted ls : Sorted String.le (sorted ls).
Proof. apply (Sorted_merge_sort String.le). Qed.

Lemma length_sorted ls : length (sorted ls) = length ls.
Proof. by rewrite sorted_Permutation. Qed.

Lemma count_lines_app a b :
  count_lines (a +:+ b) + 1 = count_lines a + count_lines b.
Proof.
  induction a as [|c a IH].
  - change ("" +:+ b) with b. simpl. lia.
  - change (String c a +:+ b) with (String c (a +:+ b)). simpl.
    case_decide; lia.
Qed.

Lemma single_line_app a b : single_line a → single_line b → single_line (a +:+ b).
Proof.
  unfold single_line. intros Ha Hb.
  pose proof (count_lines_app a b). lia.
Qed.

Lemma single_line_str_mul (c : ascii) n :
  c ≠ "010"%char → single_line (str_mul (String c "") n).
Proof.
  intros Hc. induction n as [|n IH]; [done|].
  simpl. apply single_line_app; [|done].
  unfold single_line. simpl. by rewrite decide_False.
Qed.

Lemma single_line_ljust s w : single_line s → single_line (ljust s w).
Proof.
  intros Hs. apply single_line_app; [done|].
  by apply single_line_str_mul.
Qed.

(** Joining [n > 0] strings without line feeds gives [n] lines. *)
Lemma count_lines_join ls :
  ls ≠ [] → Forall single_line ls → count_lines (join newline ls) = length ls.
Proof.
  intros Hne Hls. induction Hls as [|l ls Hl Hls IH]; [done|].
  destruct ls as [|l' ls]; [done|].
  change (join newline (l :: l' :: ls))
    with (l +:+ newline +:+ join newline (l' :: ls)).
  pose proof (count_lines_app l (newline +:+ join newline (l' :: ls))) as H1.
  pose proof (count_lines_app newline (join newline (l' :: ls))) as H2.
  rewrite IH in H2 by done.
  change (count_lines newline) with 2 in H2.
  unfold single_line in Hl. simpl in *. lia.
Qed.

End PyFacts.

(** ** The table of tags *)

Module TaggingFacts.
Import Py PyFacts Tagging.

Example format_tags_ex :
  format_tags ["b"; "a"] ["user:x"] =
  Ok (join newline
        ["*system tags (immutable)*    *customized tags*";
         "-------------------------  -----------------";
         "a                          user:x";
         "b                          "]).
Proof. vm_compute. reflexivity. Qed.

(** An entry of a list extended with [None]. *)
Lemma lookup_extended (l : list (option string)) n i :
  (l ++ replicate n None) !! i =
  if decide (i < length l + n) then Some (default None (l !! i)) else None.
Proof.
  destruct (decide (i < length l)) as [Hi|Hi].
  - rewrite lookup_app_l by done. rewrite decide_True by lia.
    destruct (lookup_lt_is_Some_2 l i Hi) as [x ->]. done.
  - rewrite lookup_app_r by lia.
    rewrite (lookup_ge_None_2 l i) by lia. simpl.
    case_decide.
    + apply lookup_replicate_2. lia.
    + apply lookup_ge_None_2. rewrite length_replicate. lia.
Qed.

Lemma length_zip_longest l1 l2 :
  length (zip_longest l1 l2) = length l1 `max` length l2.
Proof.
  unfold zip_longest, Py.zip.
  destruct (Nat.ltb_spec (length l1) (length l2));
    [|destruct (Nat.ltb_spec (length l2) (length l1))];
    rewrite length_zip_with, ?length_app, ?length_replicate; lia.
Qed.

(** Row [i] of [zip_longest] pairs entry [i] of each list, [None] past
    the end of the shorter one. *)
Lemma lookup_zip_longest l1 l2 i :
  i < length l1 `max` length l2 →
  zip_longest l1 l2 !! i =
  Some (default None (l1 !! i), default None (l2 !! i)).
Proof.
  intros Hi. unfold zip_longest, Py.zip.
  destruct (Nat.ltb_spec (length l1) (length l2)) as [H12|H12];
    [|destruct (Nat.ltb_spec (length l2) (length l1)) as [H21|H21]];
    rewrite lookup_zip_with, ?lookup_extended.
  - rewrite decide_True by lia. simpl.
    destruct (lookup_lt_is_Some_2 l2 i) as [y ->]; [lia|done].
  - destruct (lookup_lt_is_Some_2 l1 i) as [x ->]; [lia|]. simpl.
    rewrite decide_True by lia. done.
  - destruct (lookup_lt_is_Some_2 l1 i) as [x ->]; [lia|].
    destruct (lookup_lt_is_Some_2 l2 i) as [y ->]; [lia|done].
Qed.

Lemma lookup_Some_fmap (l : list string) i :
  default None ((Some <$> l) !! i) = l !! i.
Proof. rewrite list_lookup_fmap. by destruct (l !! i). Qed.

Lemma length_rows sw S U : length (rows sw S U) = length S `max` length U.
Proof.
  unfold rows. by rewrite length_fmap, length_zip_longest, !length_fmap, !length_sorted.
Qed.

Lemma lookup_rows sw S U i :
  i < length S `max` length U →
  rows sw S U !! i =
  Some (ljust (default "" (sorted S !! i)) sw +:+ "  " +:+ default "" (sorted U !! i)).
Proof.
  intros Hi. unfold rows. rewrite list_lookup_fmap, lookup_zip_longest.
  - rewrite !lookup_Some_fmap. unfold format_row, format2. simpl.
    by destruct (sorted S !! i), (sorted U !! i).
  - by rewrite !length_fmap, !length_sorted.
Qed.

(** [format_tags] returns: both [max] calls see the header. *)
Lemma format_tags_eq S U :
  format_tags S U =
  Ok (join newline
        (format_lines (max_list (String.length <$> (S ++ [header.1])))
                      (max_list (String.length <$> (U ++ [header.2]))) S U)).
Proof.
  unfold format_tags.
  rewrite !max_nonempty; [done|..]; rewrite fmap_app; by destruct (_ <$> _).
Qed.

Lemma format_lines_eq sw cw S U :
  format_lines sw cw S U =
  format2 (sw + 2) header.1 header.2
    :: format2 sw (str_mul "-" sw) (str_mul "-" cw) :: rows sw S U.
Proof. done. Qed.

Lemma single_line_rows sw S U :
  Forall single_line S → Forall single_line U → Forall single_line (rows sw S U).
Proof.
  intros HS HU. apply Forall_lookup. intros i x Hx.
  assert (i < length S `max` length U) as Hi.
  { rewrite <- (length_rows sw). by eapply lookup_lt_Some. }
  rewrite lookup_rows in Hx by done. injection Hx as <-.
  rewrite <- (sorted_Permutation S) in HS.
  rewrite <- (sorted_Permutation U) in HU.
  assert (∀ l : list string, Forall single_line l → single_line (default "" (l !! i)))
    as Hdef.
  { intros l Hl. destruct (l !! i) eqn:E; [|done].
    by eapply (Forall_lookup_1 _ l). }
  apply single_line_app; [by apply single_line_ljust, Hdef|].
  apply single_line_app; [done|by apply Hdef].
Qed.

Lemma single_line_format_lines sw cw S U :
  Forall single_line S → Forall single_line U →
  Forall single_line (format_lines sw cw S U).
Proof.
  intros HS HU. rewrite format_lines_eq.
  repeat apply Forall_cons_2; [..|by apply single_line_rows].
  - apply single_line_app; [by apply single_line_ljust|done].
  - apply single_line_app; [|apply single_line_app; [done|]].
    + by apply single_line_ljust, single_line_str_mul.
    + by apply single_line_str_mul.
Qed.

(** C5, a line feed in a tag.  A tag is written into its row as it is.
    With the one system tag made of [a], a line feed and [b], and no
    customized tag, the sizes differ and [max(|S|,|U|) + 2] is 3, yet the
    string returned has 4 lines. *)
Lemma format_tags_line_feed_in_tag :
  length [String "a" (String "010" "b")] ≠ length (@nil string) ∧
  ∃ out,
    format_tags [String "a" (String "010" "b")] [] = Ok out ∧
    count_lines out = 4 ∧
    count_lines out ≠ length [String "a" (String "010" "b")] `max` length (@nil string) + 2.
Proof.
  split; [simpl; lia|]. eexists. split; [reflexivity|].
  split; [by vm_compute|]. vm_compute. lia.
Qed.

(** C5, as the program has it.  For tag sets [S] (system) and [U]
    (customized) of different sizes, [format_tags S U] returns (no
    exception is raised) the lines of a list joined by line feeds; the list
    has [max(|S|,|U|) + 2] entries: the header line, the line of dashes, and
    [max(|S|,|U|)] data rows.  When no tag holds a line feed, the returned
    string has exactly that many lines.  (A set is given by the list of its
    elements, so [length] is its size; the difference of the sizes is not
    used by the proof, see [format_tags_eq] and [length_rows].) *)
Theorem format_tags_line_count (S U : list string) :
  length S ≠ length U →
  ∃ (sw cw : nat) (data : list string),
    format_tags S U =
      Ok (join newline
            (format2 (sw + 2) header.1 header.2
               :: format2 sw (str_mul "-" sw) (str_mul "-" cw) :: data)) ∧
    length data = length S `max` length U ∧
    length (format2 (sw + 2) header.1 header.2
              :: format2 sw (str_mul "-" sw) (str_mul "-" cw) :: data)
      = length S `max` length U + 2 ∧
    (Forall single_line S → Forall single_line U →
     ∀ out, format_tags S U = Ok out →
            count_lines out = length S `max` length U + 2).
Proof.
  intros _.
  exists (max_list (String.length <$> (S ++ [header.1]))),
         (max_list (String.length <$> (U ++ [header.2]))),
         (rows (max_list (String.length <$> (S ++ [header.1]))) S U).
  rewrite format_tags_eq.
  split; [by rewrite format_lines_eq|]. split; [apply length_rows|].
  split; [simpl; rewrite length_rows; lia|].
  intros HS HU out Hout. apply Ok_inj in Hout as <-.
  rewrite count_lines_join.
  - rewrite format_lines_eq. simpl. rewrite length_rows. lia.
  - by rewrite format_lines_eq.
  - by apply single_line_format_lines.
Qed.

Lemma format_tags_line_count_witness :
  length ["stage:dev"] ≠ length (@nil string) ∧
  Forall single_line ["stage:dev"] ∧ Forall single_line (@nil string) ∧
  ∃ out,
    format_tags ["stage:dev"] [] = Ok out ∧
    count_lines out = length ["stage:dev"] `max` length (@nil string) + 2.
Proof.
  assert (length ["stage:dev"] ≠ length (@nil string)) as Hsizes by (simpl; lia).
  assert (Forall single_line ["stage:dev"]) as HS by (repeat constructor).
  assert (Forall single_line (@nil string)) as HU by constructor.
  split; [exact Hsizes|]. split; [exact HS|]. split; [exact HU|].
  destruct (format_tags_line_count ["stage:dev"] [] Hsizes)
    as (sw & cw & data & Hout & _ & _ & Hcount).
  eexists. split; [exact Hout|]. exact (Hcount HS HU _ Hout).
Defined.

Lemma length_le_width (l : list string) (h x : string) :
  x ∈ l → String.length x ≤ max_list (String.length <$> (l ++ [h])).
Proof.
  intros Hx. apply max_list_elem_of_le.
  apply list_elem_of_fmap. exists x. split; [done|].
  apply elem_of_app. by left.
Qed.

(** C6, second column.  With no system tag and the customized tag ["a"]
    the widths are 25 and 17, and the data row ends with the tag itself:
    it is not the row with the second column padded to its width. *)
Lemma format_tags_second_column_not_padded :
  format_tags [] ["a"] =
    Ok (join newline
          [format2 27 header.1 header.2;
           format2 25 (str_mul "-" 25) (str_mul "-" 17);
           format_row 25 (None, Some "a")]) ∧
  format_row 25 (None, Some "a") = str_mul " " 27 +:+ "a" ∧
  format_row 25 (None, Some "a") ≠ format_row_padded 25 17 (None, Some "a").
Proof. split; [|split]; [by vm_compute..|]. vm_compute. discriminate. Qed.

(** C6, as the program has it.  For tag sets [S] and [U] and every index
    [i] below [max(|S|,|U|)], data row [i] of [format_tags S U] is entry
    [i] of [S] sorted ascending, padded with spaces to the width [sw] of
    the first column, then two spaces, then entry [i] of [U] sorted
    ascending, written as it is (not padded); an entry past the end of the
    shorter sorted list is the empty string.  [sw] is the greatest length
    among the system tags and the first header; no entry is longer than
    [sw], so padding never cuts and the first column is exactly [sw] wide.
    The width [cw] of the second column, the greatest length among the
    customized tags and the second header, only sets the number of dashes
    under the second header.  There are [max(|S|,|U|)] data rows, so no
    tag is left out. *)
Theorem format_tags_row (S U : list string) (i : nat) :
  i < length S `max` length U →
  ∃ (sw cw : nat) (data : list string),
    sw = max_list (String.length <$> (S ++ [header.1])) ∧
    cw = max_list (String.length <$> (U ++ [header.2])) ∧
    format_tags S U =
      Ok (join newline
            (format2 (sw + 2) header.1 header.2
               :: format2 sw (str_mul "-" sw) (str_mul "-" cw) :: data)) ∧
    length data = length S `max` length U ∧
    Sorted String.le (sorted S) ∧ sorted S ≡ₚ S ∧
    Sorted String.le (sorted U) ∧ sorted U ≡ₚ U ∧
    data !! i =
      Some (default "" (sorted S !! i)
            +:+ str_mul " " (sw - String.length (default "" (sorted S !! i)))
            +:+ "  " +:+ default "" (sorted U !! i)) ∧
    String.length (default "" (sorted S !! i)) ≤ sw ∧
    String.length (ljust (default "" (sorted S !! i)) sw) = sw.
Proof.
  intros Hi.
  set (sw := max_list (String.length <$> (S ++ [header.1]))).
  set (cw := max_list (String.length <$> (U ++ [header.2]))).
  exists sw, cw, (rows sw S U).
  assert (String.length (default "" (sorted S !! i)) ≤ sw) as Hle.
  { destruct (sorted S !! i) as [x|] eqn:E; simpl; [|lia].
    apply length_le_width. rewrite <- (sorted_Permutation S).
    by eapply list_elem_of_lookup_2. }
  split_and!; try done.
  - by rewrite format_tags_eq, format_lines_eq.
  - apply length_rows.
  - apply sorted_Sorted.
  - apply sorted_Permutation.
  - apply sorted_Sorted.
  - apply sorted_Permutation.
  - rewrite lookup_rows by done. unfold ljust.
    f_equal. apply string_app_assoc.
  - rewrite length_ljust. lia.
Qed.

Lemma format_tags_row_witness :
  1 < length ["b"; "a"] `max` length ["user:x"] ∧
  ∃ (sw cw : nat) (data : list string),
    sw = max_list (String.length <$> (["b"; "a"] ++ [header.1])) ∧
    cw = max_list (String.length <$> (["user:x"] ++ [header.2])) ∧
    format_tags ["b"; "a"] ["user:x"] =
      Ok (join newline
            (format2 (sw + 2) header.1 header.2
               :: format2 sw (str_mul "-" sw) (str_mul "-" cw) :: data)) ∧
    length data = length ["b"; "a"] `max` length ["user:x"] ∧
    Sorted String.le (sorted ["b"; "a"]) ∧ sorted ["b"; "a"] ≡ₚ ["b"; "a"] ∧
    Sorted String.le (sorted ["user:x"]) ∧ sorted ["user:x"] ≡ₚ ["user:x"] ∧
    data !! 1 =
      Some (default "" (sorted ["b"; "a"] !! 1)
            +:+ str_mul " " (sw - String.length (default "" (sorted ["b"; "a"] !! 1)))
            +:+ "  " +:+ default "" (sorted ["user:x"] !! 1)) ∧
    String.length (default "" (sorted ["b"; "a"] !! 1)) ≤ sw ∧
    String.length (ljust (default "" (sorted ["b"; "a"] !! 1)) sw) = sw.
Proof.
  split; [simpl; lia|].
  apply (format_tags_row ["b"; "a"] ["user:x"] 1). simpl. lia.
Defined.

End TaggingFacts.

(** ** Resolving a run and listing tags *)

Module ResolverFacts.
Import Py PyFacts Tagging TaggingFacts.

Section WithWorld.
Variable w : World.

(** The first [try] block of the resolver, when the flow is found. *)
Lemma flow_check_found obj ns st flow :
  Flow_lookup w ns (flow_name obj) = Ok flow →
  (namespace ns;; do _ <- Flow w (flow_name obj); ret ()) st =
  (Ok (), {| current_namespace := ns;
             calls := calls st ++ [CallNamespace ns; CallFlow (flow_name obj)] |}).
Proof.
  intros Hflow. unfold bind, namespace, Flow, ret, log. simpl.
  rewrite Hflow. by rewrite <- app_assoc.
Qed.

(** Without a run id [check_run_id] raises. *)
Lemma check_run_id_None ns fn st :
  ∃ e, check_run_id w ns fn None st = (Raise e, log (CallFlow fn) st).
Proof.
  unfold check_run_id, bind, Flow, raise. simpl.
  destruct (Flow_lookup w (current_namespace st) fn) as [flow|e]; [|by eexists].
  destruct (latest_run flow); by eexists.
Qed.

Lemma appends_ret {A} (a : A) : appends (ret a).
Proof. intros st. exists []. simpl. by rewrite app_nil_r. Qed.

Lemma appends_raise {A} e : appends (@raise State A e).
Proof. intros st. exists []. simpl. by rewrite app_nil_r. Qed.

Lemma appends_bind {A B} (m : M State A) (k : A → M State B) :
  appends m → (∀ a, appends (k a)) → appends (bind m k).
Proof.
  intros Hm Hk st. unfold bind. destruct (Hm st) as [cs Hcs].
  destruct (m st) as [[a|e] st1]; simpl in *.
  - destruct (Hk a st1) as [cs' Hcs']. exists (cs ++ cs').
    by rewrite Hcs', Hcs, app_assoc.
  - by exists cs.
Qed.

Lemma appends_try_except {A} (m : M State A) handler :
  appends m → (∀ e, appends (handler e)) → appends (try_except m handler).
Proof.
  intros Hm Hh st. unfold try_except. destruct (Hm st) as [cs Hcs].
  destruct (m st) as [[a|e] st1]; simpl in *.
  - by exists cs.
  - destruct (Hh e st1) as [cs' Hcs']. exists (cs ++ cs').
    by rewrite Hcs', Hcs, app_assoc.
Qed.

Lemma appends_namespace ns : appends (namespace ns).
Proof. intros st. by eexists. Qed.

Lemma appends_Flow p : appends (Flow w p).
Proof. intros st. by eexists. Qed.

Lemma appends_Run p : appends (Run w p).
Proof. intros st. by eexists. Qed.

Lemma appends_check_run_id ns fn run_id : appends (check_run_id w ns fn run_id).
Proof.
  destruct run_id; [apply appends_ret|].
  apply appends_bind; [apply appends_Flow|].
  intros flow. destruct (latest_run flow); apply appends_raise.
Qed.

(** The part of the resolver that follows the flow check. *)
Lemma appends_run_check ns fn run_id handler :
  (∀ e, appends (handler e)) →
  appends (check_run_id w ns fn run_id;;
           try_except (namespace ns;; Run w (fn +:+ "/" +:+ str run_id)) handler).
Proof.
  intros Hh. apply appends_bind; [apply appends_check_run_id|]. intros _.
  apply appends_try_except; [|done].
  apply appends_bind; [apply appends_namespace|]. intros _. apply appends_Run.
Qed.

Lemma appends_mismatch_handler ns fn run_id e :
  appends (match e with
           | MetaflowNotFound =>
               raise (CommandException
                 ("Run *" +:+ (fn +:+ "/" +:+ str run_id) +:+ "* does not exist " +:+
                  ("in any namespace." +:+ newline +:+ "Please check your --run-id.")))
           | MetaflowNamespaceMismatch =>
               namespace None;;
               do metaflow_client <- Run w (fn +:+ "/" +:+ str run_id);
               let run_tags := tags metaflow_client in
               if existsb (λ tag, is_prod_token (Some tag)) run_tags then
                 raise (CommandException scheduled_run_msg)
               else
                 raise (CommandException
                          (mismatch_msg (fn +:+ "/" +:+ str run_id) ns run_tags))
           | _ => raise e
           end : M State RunData).
Proof.
  destruct e; try apply appends_raise.
  apply appends_bind; [apply appends_namespace|]. intros _.
  apply appends_bind; [apply appends_Run|]. intros run.
  simpl. destruct (existsb _ _); apply appends_raise.
Qed.

(** After the flow check the namespace has been selected and the flow
    looked up, whether the check passes or raises. *)
Lemma flow_check_calls obj ns st (handler : exn → M State ()) :
  (∀ e st', (handler e st').2 = st') →
  (try_except (namespace ns;; do _ <- Flow w (flow_name obj); ret ()) handler st).2 =
  {| current_namespace := ns;
     calls := calls st ++ [CallNamespace ns; CallFlow (flow_name obj)] |}.
Proof.
  intros Hh. unfold try_except, bind, namespace, Flow, ret, log. simpl.
  destruct (Flow_lookup w ns (flow_name obj)) as [flow|e]; simpl.
  - by rewrite <- app_assoc.
  - rewrite Hh. by rewrite <- app_assoc.
Qed.

(** The text of the run's namespace mismatch: the two opening
    sentences, then the run's tags that start with ["user:"], one per
    line, in the order in which the run yields them. *)
Lemma mismatch_msg_eq run_name ns run_tags :
  mismatch_msg run_name ns run_tags =
  "Run *" +:+ run_name +:+ "* does not belong to " +:+
  "namespace *" +:+ str ns +:+ "*." +:+ newline +:+
  match filter (λ tag, startswith tag "user:" = true) run_tags with
  | [] => ""
  | _ =>
      "You can choose any of the following tags associated with *" +:+ run_name
      +:+ "* " +:+ "to use with option *--namespace*" +:+ newline +:+
      join newline ((λ tag, tab +:+ "*" +:+ tag +:+ "*") <$>
                      filter (λ tag, startswith tag "user:" = true) run_tags)
  end.
Proof.
  unfold mismatch_msg.
  destruct (filter _ run_tags) as [|t ts].
  - reflexivity.
  - rewrite !string_app_assoc. reflexivity.
Qed.

(** C2.  When the requested namespace starts with ["production:"],
    [obtain_metaflow_run_client] raises the error that forbids the
    mutation and leaves the state as it was: no namespace was selected
    and neither [Flow] nor [Run] was called. *)
Theorem obtain_production_namespace obj run_id (ns : string) st :
  startswith ns "production:" = true →
  obtain_metaflow_run_client w obj run_id (Some ns) st =
  (Raise (CommandException scheduled_run_msg), st).
Proof.
  intros Hns. unfold obtain_metaflow_run_client, is_prod_token.
  by rewrite Hns.
Qed.

(** C3, as the program has it.  [tag list] with no run id and neither
    [--all] nor [--my-runs] raises the first usage error; with both
    [--all] and [--my-runs] (and any run id) it raises the second; in
    both cases the state is as it was, so nothing was looked up. *)
Theorem tag_list_usage_errors obj run_id hide list_all my_runs st :
  (run_id = None ∧ list_all = false ∧ my_runs = false) ∨
  (list_all = true ∧ my_runs = true) →
  ∃ msg,
    tag_list w obj run_id hide list_all my_runs st = (Raise (CommandException msg), st) ∧
    msg = (if my_runs then all_with_my_runs_msg else no_option_msg).
Proof.
  intros [(-> & -> & ->)|[-> ->]]; unfold tag_list.
  - by eexists.
  - rewrite andb_false_r. by eexists.
Qed.

(** C9.  With [--all] and without [--my-runs], [tag list] does the
    same for every run id, [None] included: same result, same calls,
    same text printed. *)
Theorem tag_list_all_ignores_run_id obj run_id run_id' hide st :
  tag_list w obj run_id hide true false st =
  tag_list w obj run_id' hide true false st.
Proof. unfold tag_list. by rewrite !andb_false_r. Qed.

(** C7.  Without a run id the resolver always ends in an exception,
    so no run is ever selected.  When the namespace passes the first
    check, the flow is found and it has a latest run, the exception is
    the "Please run with --run-id" error; its message names the id of
    the latest run and the requested namespace, which is the namespace
    selected at that time; the flow was looked up twice and no run was
    looked up. *)
Theorem obtain_without_run_id obj ns st :
  (∃ e st', obtain_metaflow_run_client w obj None ns st = (Raise e, st')) ∧
  (∀ flow latest,
     is_prod_token ns = false →
     Flow_lookup w ns (flow_name obj) = Ok flow →
     latest_run flow = Some latest →
     obtain_metaflow_run_client w obj None ns st =
     (Raise (CommandException
               ("Please run with --run-id: tag add --run-id TEXT YOUR-TAGS" +:+ newline +:+
                "Flow " +:+ flow_name obj +:+ "'s latest run has run-id *" +:+ id latest
                +:+ "* under namespace " +:+ str ns)),
      {| current_namespace := ns;
         calls := calls st ++ [CallNamespace ns; CallFlow (flow_name obj);
                               CallFlow (flow_name obj)] |})).
Proof.
  split.
  - unfold obtain_metaflow_run_client.
    destruct (is_prod_token ns); [by eexists _, _|].
    unfold bind at 1.
    destruct (try_except _ _ st) as [[[]|e] st1]; [|by eexists _, _].
    unfold bind at 1.
    destruct (check_run_id_None ns (flow_name obj) st1) as [e ->].
    by eexists _, _.
  - intros flow latest Hns Hflow Hlatest.
    unfold obtain_metaflow_run_client. rewrite Hns.
    unfold bind at 1. unfold try_except at 1.
    rewrite (flow_check_found obj ns st flow Hflow).
    unfold bind at 1. unfold check_run_id, bind, Flow, raise, log. simpl.
    rewrite Hflow, Hlatest. by rewrite <- app_assoc.
Qed.

(** C1.  Let the flow be found under the requested namespace [ns], let
    the lookup of the run under [ns] raise the namespace mismatch, and
    let the lookup with no namespace return [run].  If a tag of [run]
    starts with ["production:"], the resolver raises the error that
    forbids the mutation, for every [ns].  If none does (and [ns] passes
    the first check, without which the branch is not reached), it raises
    the namespace mismatch of the run, whose message lists, after its
    opening sentences, exactly the tags of [run] that start with
    ["user:"]; the namespace is left unselected. *)
Theorem obtain_namespace_mismatch obj (run_id : string) ns st flow run :
  Flow_lookup w ns (flow_name obj) = Ok flow →
  Run_lookup w ns (flow_name obj +:+ "/" +:+ run_id) = Raise MetaflowNamespaceMismatch →
  Run_lookup w None (flow_name obj +:+ "/" +:+ run_id) = Ok run →
  (existsb (λ tag, startswith tag "production:") (tags run) = true →
   (obtain_metaflow_run_client w obj (Some run_id) ns st).1 =
   Raise (CommandException scheduled_run_msg)) ∧
  (is_prod_token ns = false →
   existsb (λ tag, startswith tag "production:") (tags run) = false →
   ∃ user_tags,
     user_tags = filter (λ tag, startswith tag "user:" = true) (tags run) ∧
     obtain_metaflow_run_client w obj (Some run_id) ns st =
     (Raise (CommandException
               ("Run *" +:+ (flow_name obj +:+ "/" +:+ run_id) +:+ "* does not belong to " +:+
                "namespace *" +:+ str ns +:+ "*." +:+ newline +:+
                match user_tags with
                | [] => ""
                | _ =>
                    "You can choose any of the following tags associated with *" +:+
                    (flow_name obj +:+ "/" +:+ run_id) +:+ "* " +:+
                    "to use with option *--namespace*" +:+ newline +:+
                    join newline ((λ tag, tab +:+ "*" +:+ tag +:+ "*") <$> user_tags)
                end)),
      {| current_namespace := None;
         calls := calls st ++
           [CallNamespace ns; CallFlow (flow_name obj);
            CallNamespace ns; CallRun (flow_name obj +:+ "/" +:+ run_id);
            CallNamespace None; CallRun (flow_name obj +:+ "/" +:+ run_id)] |})).
Proof.
  intros Hflow Hrun Hrun'.
  assert (∀ b, is_prod_token ns = false →
            existsb (λ tag, startswith tag "production:") (tags run) = b →
            obtain_metaflow_run_client w obj (Some run_id) ns st =
            (Raise (CommandException
                      (if b then scheduled_run_msg
                       else mismatch_msg (flow_name obj +:+ "/" +:+ run_id) ns (tags run))),
             {| current_namespace := None;
                calls := calls st ++
                  [CallNamespace ns; CallFlow (flow_name obj);
                   CallNamespace ns; CallRun (flow_name obj +:+ "/" +:+ run_id);
                   CallNamespace None; CallRun (flow_name obj +:+ "/" +:+ run_id)] |}))
    as Hbranch.
  { intros b Hns Hb. unfold obtain_metaflow_run_client. rewrite Hns.
    unfold bind at 1. unfold try_except at 1.
    rewrite (flow_check_found obj ns st flow Hflow).
    unfold check_run_id, try_except, bind, ret, raise, namespace, Run, log.
    simpl. rewrite Hrun. simpl. rewrite Hrun'. simpl.
    unfold is_prod_token. rewrite Hb. rewrite <- !app_assoc. simpl.
    by destruct b. }
  split.
  - intros Hprod. destruct (is_prod_token ns) eqn:Hns.
    + unfold obtain_metaflow_run_client. by rewrite Hns.
    + by rewrite (Hbranch true).
  - intros Hns Hprod. eexists. split; [done|].
    rewrite (Hbranch false) by done. by rewrite mismatch_msg_eq.
Qed.

(** C10.  [is_prod_token(None)] is false.  Resolving with no namespace
    therefore never stops at the first check: the namespace is set to
    [None] and the flow is looked up, for every run id.  [tag list] with
    a run id and neither [--all] nor [--my-runs] resolves with no
    namespace: when the flow and the run are found it prints the table
    of the run's tags, whatever these are, so also for a run that
    carries a tag starting with ["production:"]. *)
Theorem obtain_unrestricted_namespace :
  is_prod_token None = false ∧
  (∀ obj run_id st, ∃ cs,
     calls (obtain_metaflow_run_client w obj run_id None st).2 =
     calls st ++ CallNamespace None :: CallFlow (flow_name obj) :: cs) ∧
  (∀ obj (run_id : string) hide st flow run,
     Flow_lookup w None (flow_name obj) = Ok flow →
     Run_lookup w None (flow_name obj +:+ "/" +:+ run_id) = Ok run →
     ∃ table,
       format_tags (if hide : bool then [] else system_tags run)
                   (difference (tags run) (system_tags run)) = Ok table ∧
       tag_list w obj (Some run_id) hide false false st =
       (Ok (), {| current_namespace := None;
                  calls := calls st ++
                    [CallNamespace None; CallFlow (flow_name obj);
                     CallNamespace None; CallRun (flow_name obj +:+ "/" +:+ run_id);
                     CallEcho table] |})).
Proof.
  split; [done|]. split.
  - intros obj run_id st. unfold obtain_metaflow_run_client. simpl.
    unfold bind at 1.
    match goal with
    | |- context [try_except ?m ?h st] =>
        pose proof (flow_check_calls obj None st h) as Hst;
        destruct (try_except m h st) as [[[]|e] st1]
    end; simpl in Hst; rewrite Hst by (by intros []); clear Hst.
    + match goal with
      | |- context [bind _ _ ?st1] =>
          destruct (appends_run_check None (flow_name obj) run_id _
                      (appends_mismatch_handler None (flow_name obj) run_id) st1)
            as [cs Hcs]
      end.
      exists cs. etrans; [exact Hcs|]. simpl. by rewrite <- app_assoc.
    + by exists [].
  - intros obj run_id hide st flow run Hflow Hrun.
    eexists. split; [apply format_tags_eq|].
    unfold tag_list. simpl.
    unfold bind at 1. unfold bind at 1.
    unfold obtain_metaflow_run_client. simpl.
    unfold bind at 1. unfold try_except at 1.
    rewrite (flow_check_found obj None st flow Hflow).
    unfold check_run_id, try_except, bind, ret, raise, namespace, Run, log.
    simpl. rewrite Hrun. simpl.
    unfold lift, echo, log. simpl.
    destruct hide; rewrite format_tags_eq; simpl; by rewrite <- !app_assoc.
Qed.

End WithWorld.

Lemma obtain_production_namespace_witness :
  startswith "production:F-0-abcd" "production:" = true ∧
  obtain_metaflow_run_client Sample.Tags.world Sample.Tags.obj (Some "8")
    (Some "production:F-0-abcd") Sample.Tags.start =
  (Raise (CommandException scheduled_run_msg), Sample.Tags.start).
Proof.
  split; [reflexivity|].
  apply (obtain_production_namespace Sample.Tags.world). reflexivity.
Defined.

(** C3, run id with [--all].  A run id together with [--all] is two of
    the three choices, yet no usage error is raised: the flow is looked
    up and the table of all runs is printed. *)
Lemma tag_list_run_id_with_all :
  ∃ table,
    tag_list Sample.Tags.world Sample.Tags.obj (Some "7") false true false
      Sample.Tags.start =
    (Ok (), {| current_namespace := None;
               calls := [CallNamespace None; CallFlow "F"; CallRuns; CallEcho table] |}).
Proof. eexists. vm_compute. reflexivity. Qed.

Lemma tag_list_usage_errors_witness :
  ((Some "7" = None ∧ true = false ∧ true = false) ∨ (true = true ∧ true = true)) ∧
  ∃ msg,
    tag_list Sample.Tags.world Sample.Tags.obj (Some "7") false true true
      Sample.Tags.start = (Raise (CommandException msg), Sample.Tags.start) ∧
    msg = all_with_my_runs_msg.
Proof.
  split; [right; split; reflexivity|].
  apply (tag_list_usage_errors Sample.Tags.world). right. split; reflexivity.
Defined.

Lemma obtain_without_run_id_witness :
  is_prod_token (Some "user:bob") = false ∧
  Flow_lookup Sample.Tags.world (Some "user:bob") "F" =
    Ok {| latest_run := Some Sample.Tags.run7; runs := [Sample.Tags.run7] |} ∧
  obtain_metaflow_run_client Sample.Tags.world Sample.Tags.obj None (Some "user:bob")
    Sample.Tags.start =
  (Raise (CommandException
            ("Please run with --run-id: tag add --run-id TEXT YOUR-TAGS" +:+ newline +:+
             "Flow F's latest run has run-id *7* under namespace user:bob")),
   {| current_namespace := Some "user:bob";
      calls := [CallNamespace (Some "user:bob"); CallFlow "F"; CallFlow "F"] |}).
Proof.
  split; [reflexivity|]. split; [reflexivity|].
  apply (proj2 (obtain_without_run_id Sample.Tags.world Sample.Tags.obj
                  (Some "user:bob") Sample.Tags.start)
           {| latest_run := Some Sample.Tags.run7; runs := [Sample.Tags.run7] |}
           Sample.Tags.run7); reflexivity.
Defined.

(** Run [8] is scheduled and asked for under [user:bob]; run [7] is
    [bob]'s and asked for under [user:svc]. *)
Lemma obtain_namespace_mismatch_witness :
  (Run_lookup Sample.Tags.world (Some "user:bob") "F/8" = Raise MetaflowNamespaceMismatch ∧
   Run_lookup Sample.Tags.world None "F/8" = Ok Sample.Tags.run8 ∧
   existsb (λ tag, startswith tag "production:") (tags Sample.Tags.run8) = true ∧
   (obtain_metaflow_run_client Sample.Tags.world Sample.Tags.obj (Some "8")
      (Some "user:bob") Sample.Tags.start).1 =
   Raise (CommandException scheduled_run_msg)) ∧
  (Run_lookup Sample.Tags.world (Some "user:svc") "F/7" = Raise MetaflowNamespaceMismatch ∧
   Run_lookup Sample.Tags.world None "F/7" = Ok Sample.Tags.run7 ∧
   existsb (λ tag, startswith tag "production:") (tags Sample.Tags.run7) = false ∧
   (obtain_metaflow_run_client Sample.Tags.world Sample.Tags.obj (Some "7")
      (Some "user:svc") Sample.Tags.start).1 =
   Raise (CommandException
            ("Run *F/7* does not belong to namespace *user:svc*." +:+ newline +:+
             "You can choose any of the following tags associated with *F/7* " +:+
             "to use with option *--namespace*" +:+ newline +:+
             tab +:+ "*user:bob*"))).
Proof.
  split.
  - split; [reflexivity|]. split; [reflexivity|]. split; [reflexivity|].
    apply (proj1 (obtain_namespace_mismatch Sample.Tags.world Sample.Tags.obj "8"
                    (Some "user:bob") Sample.Tags.start
                    {| latest_run := Some Sample.Tags.run7; runs := [Sample.Tags.run7] |}
                    Sample.Tags.run8 eq_refl eq_refl eq_refl)).
    reflexivity.
  - split; [reflexivity|]. split; [reflexivity|]. split; [reflexivity|].
    destruct (proj2 (obtain_namespace_mismatch Sample.Tags.world Sample.Tags.obj "7"
                       (Some "user:svc") Sample.Tags.start
                       {| latest_run := Some Sample.Tags.run8; runs := [Sample.Tags.run8] |}
                       Sample.Tags.run7 eq_refl eq_refl eq_refl) eq_refl eq_refl)
      as (user_tags & -> & ->).
    reflexivity.
Defined.

(** Run [8] carries ["production:F-0-abcd"]; [tag list --run-id 8]
    prints it among the customized tags. *)
Lemma obtain_unrestricted_namespace_witness :
  Flow_lookup Sample.Tags.world None "F" =
    Ok {| latest_run := Some Sample.Tags.run8;
          runs := [Sample.Tags.run8; Sample.Tags.run7] |} ∧
  Run_lookup Sample.Tags.world None "F/8" = Ok Sample.Tags.run8 ∧
  existsb (λ tag, is_prod_token (Some tag)) (tags Sample.Tags.run8) = true ∧
  ∃ table,
    format_tags ["runtime:prod"] ["production:F-0-abcd"; "user:svc"] = Ok table ∧
    tag_list Sample.Tags.world Sample.Tags.obj (Some "8") false false false
      Sample.Tags.start =
    (Ok (), {| current_namespace := None;
               calls := [CallNamespace None; CallFlow "F"; CallNamespace None;
                         CallRun "F/8"; CallEcho table] |}).
Proof.
  split; [reflexivity|]. split; [reflexivity|]. split; [reflexivity|].
  apply (proj2 (proj2 (obtain_unrestricted_namespace Sample.Tags.world))
           Sample.Tags.obj "8" false Sample.Tags.start
           {| latest_run := Some Sample.Tags.run8;
              runs := [Sample.Tags.run8; Sample.Tags.run7] |}
           Sample.Tags.run8); reflexivity.
Defined.

End ResolverFacts.

(** ** Exporting the DAG *)

Module AirflowFacts.
Import Py PyFacts AirflowCli.

Section WithWorld.
Variable w : World.

(** With a project and a name, [resolve_dag_name] raises. *)
Lemma resolve_dag_name_project name st :
  truthy (project_name (current w)) = true →
  truthy name = true →
  resolve_dag_name w name st = (Raise (MetaflowException not_supported_msg), st).
Proof. intros Hp Hn. unfold resolve_dag_name. by rewrite Hp, Hn. Qed.

(** [resolve_dag_name] calls no collaborator and writes nothing. *)
Lemma resolve_dag_name_state name st : (resolve_dag_name w name st).2 = st.
Proof.
  unfold resolve_dag_name.
  destruct (truthy (project_name (current w))), (truthy name); simpl; try done.
  by destruct (VALID_NAME_search _).
Qed.

(** [make_flow] writes neither files nor S3 objects. *)
Lemma make_flow_stores name tags ns mw ip fp wp sa st :
  files (make_flow w name tags ns mw ip fp wp sa st).2 = files st ∧
  objects (make_flow w name tags ns mw ip fp wp sa st).2 = objects st.
Proof.
  unfold make_flow, bind, external.
  destruct (attach_decorators w); [|done].
  destruct (init_step_decorators w); [|done].
  destruct (package_blob w) as [blob|]; [|done].
  destruct (save_data w blob); [|done].
  pose proof (resolve_dag_name_state name
                (log (CallSaveData blob) (log CallMetaflowPackage
                   (log CallInitStepDecorators (log CallAttachDecorators st))))) as Hst.
  destruct (resolve_dag_name w name _) as [[r|e] st1]; simpl in *; by subst st1.
Qed.

(** C4, as the program has it.  With a project active and a name that
    is not empty, [create] ends in an exception; up to there it has
    only attached and initialised the decorators, built the package and
    uploaded it, and has written nothing.  When these four steps succeed,
    all four have been made, the package upload included, and the
    exception is the "not supported for @projects" error: the name is
    checked after the packaging and before the compiler is called. *)
Theorem create_project_with_name fp tags name sa ns mw wp st :
  truthy (project_name (current w)) = true →
  truthy name = true →
  (∃ e cs,
     create w fp tags name sa ns mw wp st =
       (Raise e, {| calls := calls st ++ cs; files := files st; objects := objects st |}) ∧
     forallb before_name cs = true) ∧
  (∀ blob saved,
     attach_decorators w = Ok () →
     init_step_decorators w = Ok () →
     package_blob w = Ok blob →
     save_data w blob = Ok saved →
     create w fp tags name sa ns mw wp st =
       (Raise (MetaflowException not_supported_msg),
        {| calls := calls st ++ [CallAttachDecorators; CallInitStepDecorators;
                                 CallMetaflowPackage; CallSaveData blob];
           files := files st; objects := objects st |})).
Proof.
  intros Hp Hn. split.
  - unfold create, make_flow, bind, external, log. simpl.
    destruct (attach_decorators w);
      [|by exists e, [CallAttachDecorators]].
    destruct (init_step_decorators w);
      [|exists e, [CallAttachDecorators; CallInitStepDecorators];
        by rewrite <- !app_assoc].
    destruct (package_blob w) as [blob|];
      [|exists e, [CallAttachDecorators; CallInitStepDecorators; CallMetaflowPackage];
        by rewrite <- !app_assoc].
    destruct (save_data w blob);
      [|exists e, [CallAttachDecorators; CallInitStepDecorators;
                   CallMetaflowPackage; CallSaveData blob];
        by rewrite <- !app_assoc].
    rewrite resolve_dag_name_project by done.
    eexists _, [CallAttachDecorators; CallInitStepDecorators;
                CallMetaflowPackage; CallSaveData blob].
    by rewrite <- !app_assoc.
  - intros blob saved Ha Hi Hb Hs.
    unfold create, make_flow, bind, external, log. simpl.
    rewrite Ha, Hi, Hb, Hs. rewrite resolve_dag_name_project by done.
    by rewrite <- !app_assoc.
Qed.

(** C8.  Let [make_flow] return [flow] and let the compiler return
    [dag].  Where the artifact goes depends on the path alone.  With no
    path, [dag] is echoed and nothing is stored.  With a path that starts
    with ["s3://"], [dag] is put to S3 at that path and nothing else:
    no echo, no file touched; when the put succeeds the object at the
    path is [dag].  With any other path the file is opened for writing
    and nothing else: no echo, no S3 object touched; when the file opens,
    its content is [dag] whatever it held before, and the other files
    are as before the command. *)
Theorem create_output_routing fp tags name sa ns mw wp st flow st1 dag :
  make_flow w name tags ns mw false fp wp sa st = (Ok flow, st1) →
  compile w flow = Ok dag →
  match fp with
  | None =>
      create w fp tags name sa ns mw wp st =
      (Ok (), {| calls := calls st1 ++ [CallCompile flow; CallEchoAlways dag];
                 files := files st; objects := objects st |})
  | Some path =>
      if startswith path "s3://" then
        ∃ r st',
          create w fp tags name sa ns mw wp st = (r, st') ∧
          calls st' = calls st1 ++ [CallCompile flow; CallS3Put path dag] ∧
          files st' = files st ∧
          (s3_put w path dag = Ok () →
           r = Ok () ∧ objects st' = <[path := dag]> (objects st)) ∧
          (s3_put w path dag ≠ Ok () → r ≠ Ok () ∧ objects st' = objects st)
      else
        ∃ r st',
          create w fp tags name sa ns mw wp st = (r, st') ∧
          objects st' = objects st ∧
          (open_w w path = Ok () →
           r = Ok () ∧
           calls st' = calls st1 ++ [CallCompile flow; CallOpen path;
                                     CallWrite path dag] ∧
           files st' !! path = Some dag ∧
           ∀ other, other ≠ path → files st' !! other = files st !! other) ∧
          (open_w w path ≠ Ok () →
           r ≠ Ok () ∧
           calls st' = calls st1 ++ [CallCompile flow; CallOpen path] ∧
           files st' = files st)
  end.
Proof.
  intros Hmake Hcompile.
  destruct (make_flow_stores name tags ns mw false fp wp sa st) as [Hfiles Hobjects].
  rewrite Hmake in Hfiles, Hobjects. simpl in Hfiles, Hobjects.
  assert (∀ k : string → M State (),
            (do flow0 <- make_flow w name tags ns mw false fp wp sa;
             do compiled_dag_file <- external (CallCompile flow0) (compile w flow0);
             k compiled_dag_file) st = k dag (log (CallCompile flow) st1)) as Hstart.
  { intros k. unfold bind at 1. rewrite Hmake.
    unfold bind at 1. unfold external at 1. by rewrite Hcompile. }
  unfold create.
  destruct fp as [path|]; [destruct (startswith path "s3://")|].
  - rewrite (Hstart (λ d, S3_put w path d)).
    unfold S3_put, log. simpl.
    destruct (s3_put w path dag) as [[]|e] eqn:Hput; eexists _, _;
      (split; [done|]); simpl; rewrite <- app_assoc, Hfiles, Hobjects;
      split_and!; done.
  - rewrite (Hstart (λ d, open_write w path;; write path d)).
    unfold bind, open_write, write, log. simpl.
    destruct (open_w w path) as [[]|e] eqn:Hopen; eexists _, _;
      (split; [done|]); simpl; rewrite ?Hfiles, ?Hobjects;
      split_and!; try done.
    + intros _. split_and!; try done.
      * by rewrite <- !app_assoc.
      * rewrite lookup_insert_eq. simpl. by rewrite lookup_insert_eq.
      * intros other Hother. by rewrite !lookup_insert_ne.
    + intros _. split_and!; try done. by rewrite <- !app_assoc.
  - rewrite (Hstart (λ d, echo_always d)).
    unfold echo_always, external, log. simpl.
    by rewrite <- app_assoc, Hfiles, Hobjects.
Qed.

End WithWorld.

(** C4, the order.  With project [demo] active and [--name foo], the
    "not supported for @projects" error is raised after the package has
    been built and uploaded to the datastore. *)
Lemma create_project_name_after_packaging :
  (create (Sample.Dag.world (Some "demo")) None [] (Some "foo") false None 100 None
     Sample.Dag.start).1 = Raise (MetaflowException not_supported_msg) ∧
  calls (create (Sample.Dag.world (Some "demo")) None [] (Some "foo") false None 100 None
           Sample.Dag.start).2 =
    [CallAttachDecorators; CallInitStepDecorators; CallMetaflowPackage;
     CallSaveData "blob"] ∧
  existsb packaging
    (calls (create (Sample.Dag.world (Some "demo")) None [] (Some "foo") false None 100
              None Sample.Dag.start).2) = true.
Proof. split; [|split]; reflexivity. Qed.

Lemma create_project_with_name_witness :
  truthy (Some "demo") = true ∧ truthy (Some "foo") = true ∧
  create (Sample.Dag.world (Some "demo")) None [] (Some "foo") false None 100 None
    Sample.Dag.start =
  (Raise (MetaflowException not_supported_msg),
   {| calls := [CallAttachDecorators; CallInitStepDecorators;
                CallMetaflowPackage; CallSaveData "blob"];
      files := files Sample.Dag.start; objects := objects Sample.Dag.start |}).
Proof.
  split; [reflexivity|]. split; [reflexivity|].
  apply (proj2 (create_project_with_name (Sample.Dag.world (Some "demo"))
                  None [] (Some "foo") false None 100 None Sample.Dag.start
                  eq_refl eq_refl)
           "blob" ("s3://datastore/F/data/ab/abcd", "abcd")); reflexivity.
Defined.

(** The three destinations, from a state in which [dag.py] exists. *)
Lemma create_output_routing_witness :
  files Sample.Dag.start !! "dag.py" = Some "old content" ∧
  create (Sample.Dag.world None) None [] None false None 100 None Sample.Dag.start =
    (Ok (), {| calls := calls (Sample.Dag.made None) ++
                 [CallCompile (Sample.Dag.flow None); CallEchoAlways "# dag F"];
               files := files Sample.Dag.start; objects := objects Sample.Dag.start |}) ∧
  (∃ r st',
     create (Sample.Dag.world None) (Some "s3://bucket/dag.py") [] None false None 100 None
       Sample.Dag.start = (r, st') ∧
     calls st' = calls (Sample.Dag.made (Some "s3://bucket/dag.py")) ++
       [CallCompile (Sample.Dag.flow (Some "s3://bucket/dag.py"));
        CallS3Put "s3://bucket/dag.py" "# dag F"] ∧
     files st' = files Sample.Dag.start ∧
     (Ok () = Ok () →
      r = Ok () ∧
      objects st' = <["s3://bucket/dag.py" := "# dag F"]> (objects Sample.Dag.start)) ∧
     (Ok () ≠ Ok () → r ≠ Ok () ∧ objects st' = objects Sample.Dag.start)) ∧
  (∃ r st',
     create (Sample.Dag.world None) (Some "dag.py") [] None false None 100 None
       Sample.Dag.start = (r, st') ∧
     objects st' = objects Sample.Dag.start ∧
     (Ok () = Ok () →
      r = Ok () ∧
      calls st' = calls (Sample.Dag.made (Some "dag.py")) ++
        [CallCompile (Sample.Dag.flow (Some "dag.py")); CallOpen "dag.py";
         CallWrite "dag.py" "# dag F"] ∧
      files st' !! "dag.py" = Some "# dag F" ∧
      ∀ other, other ≠ "dag.py" → files st' !! other = files Sample.Dag.start !! other) ∧
     (Ok () ≠ Ok () →
      r ≠ Ok () ∧
      calls st' = calls (Sample.Dag.made (Some "dag.py")) ++
        [CallCompile (Sample.Dag.flow (Some "dag.py")); CallOpen "dag.py"] ∧
      files st' = files Sample.Dag.start)).
Proof.
  split; [reflexivity|]. split; [|split].
  - exact (create_output_routing (Sample.Dag.world None) None [] None false None 100 None
             Sample.Dag.start (Sample.Dag.flow None) (Sample.Dag.made None) "# dag F"
             eq_refl eq_refl).
  - exact (create_output_routing (Sample.Dag.world None) (Some "s3://bucket/dag.py")
             [] None false None 100 None Sample.Dag.start
             (Sample.Dag.flow (Some "s3://bucket/dag.py"))
             (Sample.Dag.made (Some "s3://bucket/dag.py")) "# dag F" eq_refl eq_refl).
  - exact (create_output_routing (Sample.Dag.world None) (Some "dag.py")
             [] None false None 100 None Sample.Dag.start
             (Sample.Dag.flow (Some "dag.py"))
             (Sample.Dag.made (Some "dag.py")) "# dag F" eq_refl eq_refl).
Defined.

End AirflowFacts.

(** ** More on the table of tags *)

Module TableExtras.
Import Py PyFacts Tagging TaggingFacts.

(** X1.  [zip_longest] leaves no entry out: the first components of its
    pairs are [list1] followed by as many [None] as [list2] is longer, and
    the second components are [list2] followed by as many [None] as [list1]
    is longer. *)
Theorem zip_longest_keeps_all (list1 list2 : list (option string)) :
  (zip_longest list1 list2).*1 = list1 ++ replicate (length list2 - length list1) None ∧
  (zip_longest list1 list2).*2 = list2 ++ replicate (length list1 - length list2) None.
Proof.
  unfold zip_longest, Py.zip.
  destruct (Nat.ltb_spec (length list1) (length list2)) as [H12|H12];
    [|destruct (Nat.ltb_spec (length list2) (length list1)) as [H21|H21]].
  - replace (length list1 - length list2) with 0 by lia.
    rewrite fst_zip, snd_zip, app_nil_r; [done|..];
      rewrite length_app, length_replicate; lia.
  - replace (length list2 - length list1) with 0 by lia.
    rewrite fst_zip, snd_zip, app_nil_r; [done|..];
      rewrite length_app, length_replicate; lia.
  - replace (length list1 - length list2) with 0 by lia.
    replace (length list2 - length list1) with 0 by lia.
    rewrite fst_zip, snd_zip, !app_nil_r; [done|lia..].
Qed.

(** Sorting does not depend on the order in which the tags come. *)
Lemma sorted_Permutation_eq l l' : l ≡ₚ l' → sorted l = sorted l'.
Proof.
  intros Hl. apply (Sorted_unique String.le); [apply sorted_Sorted..|].
  by rewrite !sorted_Permutation.
Qed.

(** X2.  The table does not depend on the order in which the two sets
    yield their tags: listing the same tags in another order gives the same
    text. *)
Theorem format_tags_order (S S' U U' : list string) :
  S ≡ₚ S' → U ≡ₚ U' → format_tags S U = format_tags S' U'.
Proof.
  intros HS HU. rewrite !format_tags_eq. unfold format_lines, rows.
  rewrite (sorted_Permutation_eq S S' HS), (sorted_Permutation_eq U U' HU).
  assert (max_list (String.length <$> S ++ [header.1])
          = max_list (String.length <$> S' ++ [header.1])) as ->.
  { by rewrite HS. }
  assert (max_list (String.length <$> U ++ [header.2])
          = max_list (String.length <$> U' ++ [header.2])) as ->.
  { by rewrite HU. }
  done.
Qed.

Lemma format_tags_order_witness :
  ["runtime:dev"; "metaflow_version:2"] ≡ₚ ["metaflow_version:2"; "runtime:dev"] ∧
  ["user:bob"] ≡ₚ ["user:bob"] ∧
  format_tags ["runtime:dev"; "metaflow_version:2"] ["user:bob"] =
  format_tags ["metaflow_version:2"; "runtime:dev"] ["user:bob"].
Proof.
  split; [apply perm_swap|]. split; [reflexivity|].
  apply (format_tags_order ["runtime:dev"; "metaflow_version:2"]
           ["metaflow_version:2"; "runtime:dev"] ["user:bob"] ["user:bob"]).
  - apply perm_swap.
  - reflexivity.
Defined.

End TableExtras.

(** ** More on resolving a run *)

Module ResolverExtras.
Import Py PyFacts Tagging TaggingFacts ResolverFacts.

Section WithWorld.
Variable w : World.

(** The resolver once the first check is passed and the flow found: the
    run check and the run lookup go on from the state after the flow
    lookup. *)
Lemma obtain_after_flow obj run_id ns st flow :
  is_prod_token ns = false →
  Flow_lookup w ns (flow_name obj) = Ok flow →
  obtain_metaflow_run_client w obj run_id ns st =
  (check_run_id w ns (flow_name obj) run_id;;
   try_except (namespace ns;; Run w (flow_name obj +:+ "/" +:+ str run_id))
     (λ e, match e with
           | MetaflowNotFound =>
               raise (CommandException
                 ("Run *" +:+ (flow_name obj +:+ "/" +:+ str run_id) +:+ "* does not exist " +:+
                  ("in any namespace." +:+ newline +:+ "Please check your --run-id.")))
           | MetaflowNamespaceMismatch =>
               namespace None;;
               do metaflow_client <- Run w (flow_name obj +:+ "/" +:+ str run_id);
               let run_tags := tags metaflow_client in
               if existsb (λ tag, is_prod_token (Some tag)) run_tags then
                 raise (CommandException scheduled_run_msg)
               else
                 raise (CommandException
                          (mismatch_msg (flow_name obj +:+ "/" +:+ str run_id) ns run_tags))
           | _ => raise e
           end))
    {| current_namespace := ns;
       calls := calls st ++ [CallNamespace ns; CallFlow (flow_name obj)] |}.
Proof.
  intros Hns Hflow. unfold obtain_metaflow_run_client. rewrite Hns.
  unfold bind at 1. unfold try_except at 1.
  by rewrite (flow_check_found w obj ns st flow Hflow).
Qed.

(** When the resolver returns a run. *)
Lemma obtain_Ok_spec obj run_id ns st run st' :
  obtain_metaflow_run_client w obj run_id ns st = (Ok run, st') ↔
  is_prod_token ns = false ∧
  ∃ r flow,
    run_id = Some r ∧
    Flow_lookup w ns (flow_name obj) = Ok flow ∧
    Run_lookup w ns (flow_name obj +:+ "/" +:+ r) = Ok run ∧
    st' = {| current_namespace := ns;
             calls := calls st ++
               [CallNamespace ns; CallFlow (flow_name obj);
                CallNamespace ns; CallRun (flow_name obj +:+ "/" +:+ r)] |}.
Proof.
  split.
  - intros Hok. destruct (is_prod_token ns) eqn:Hns.
    { unfold obtain_metaflow_run_client in Hok. by rewrite Hns in Hok. }
    split; [done|].
    destruct (Flow_lookup w ns (flow_name obj)) as [flow|e] eqn:Hflow.
    + rewrite (obtain_after_flow obj run_id ns st flow Hns Hflow) in Hok.
      destruct run_id as [r|].
      * exists r, flow. split; [done|]. split; [done|].
        revert Hok.
        unfold check_run_id, try_except, bind, ret, raise, namespace, Run, log. simpl.
        destruct (Run_lookup w ns (flow_name obj +:+ "/" +:+ r)) as [run'|e] eqn:Hrun.
        -- rewrite <- !app_assoc. simpl. by intros [= -> <-].
        -- destruct e; try done. simpl.
           destruct (Run_lookup w None _); [|done].
           by destruct (existsb _ _).
      * revert Hok. unfold bind at 1.
        destruct (check_run_id_None w ns (flow_name obj)
                    {| current_namespace := ns;
                       calls := calls st ++ [CallNamespace ns; CallFlow (flow_name obj)] |})
          as [e ->].
        done.
    + revert Hok.
      unfold obtain_metaflow_run_client, try_except, bind, ret, raise, namespace, Flow, log.
      rewrite Hns. simpl. rewrite Hflow. by destruct e.
  - intros (Hns & r & flow & -> & Hflow & Hrun & ->).
    rewrite (obtain_after_flow obj (Some r) ns st flow Hns Hflow).
    unfold check_run_id, try_except, bind, ret, raise, namespace, Run, log. simpl.
    rewrite Hrun. by rewrite <- !app_assoc.
Qed.

(** X3.  The resolver returns a run exactly when the requested namespace
    does not start with ["production:"], a run id is given, the flow is
    found under the namespace and so is the run; the run returned is the one
    found under that namespace, which stays selected, and the lookups made
    are the flow and the run, each after selecting the namespace. *)
Theorem obtain_Ok_iff obj run_id ns st run st' :
  obtain_metaflow_run_client w obj run_id ns st = (Ok run, st') ↔
  is_prod_token ns = false ∧
  ∃ r flow,
    run_id = Some r ∧
    Flow_lookup w ns (flow_name obj) = Ok flow ∧
    Run_lookup w ns (flow_name obj +:+ "/" +:+ r) = Ok run ∧
    st' = {| current_namespace := ns;
             calls := calls st ++
               [CallNamespace ns; CallFlow (flow_name obj);
                CallNamespace ns; CallRun (flow_name obj +:+ "/" +:+ r)] |}.
Proof. apply obtain_Ok_spec. Qed.

(** X4.  When the flow lookup raises, the resolver stops after it: a
    [MetaflowNotFound] becomes the "does not exist in any namespace" error,
    a [MetaflowNamespaceMismatch] becomes the "does not belong to namespace"
    error that names the requested namespace, and any other exception is
    raised as it is; no run is looked up. *)
Theorem obtain_flow_lookup_raises obj run_id ns st e :
  is_prod_token ns = false →
  Flow_lookup w ns (flow_name obj) = Raise e →
  obtain_metaflow_run_client w obj run_id ns st =
  (Raise match e with
         | MetaflowNotFound =>
             CommandException
               ("Flow *" +:+ flow_name obj +:+ "* does not exist in any namespace."
                +:+ newline +:+ "Please run the flow before tagging.")
         | MetaflowNamespaceMismatch =>
             CommandException
               ("Flow *" +:+ flow_name obj +:+ "* does not belong to namespace *"
                +:+ str ns +:+ "*." +:+ newline +:+
                "Check typos if you used option --namespace.")
         | _ => e
         end,
   {| current_namespace := ns;
      calls := calls st ++ [CallNamespace ns; CallFlow (flow_name obj)] |}).
Proof.
  intros Hns Hflow.
  unfold obtain_metaflow_run_client, try_except, bind, ret, raise, namespace, Flow, log.
  rewrite Hns. simpl. rewrite Hflow, <- !app_assoc. simpl.
  destruct e; try done.
  rewrite !string_app_assoc. reflexivity.
Qed.

(** X5.  When the flow is found and the run lookup under the requested
    namespace raises anything but the namespace mismatch, the resolver
    stops there, with the requested namespace still selected and no second
    lookup: a [MetaflowNotFound] becomes the "Run ... does not exist in any
    namespace" error, and any other exception is raised as it is. *)
Theorem obtain_run_lookup_raises obj (run_id : string) ns st flow e :
  is_prod_token ns = false →
  Flow_lookup w ns (flow_name obj) = Ok flow →
  Run_lookup w ns (flow_name obj +:+ "/" +:+ run_id) = Raise e →
  e ≠ MetaflowNamespaceMismatch →
  obtain_metaflow_run_client w obj (Some run_id) ns st =
  (Raise match e with
         | MetaflowNotFound =>
             CommandException
               ("Run *" +:+ flow_name obj +:+ "/" +:+ run_id +:+
                "* does not exist in any namespace." +:+ newline +:+
                "Please check your --run-id.")
         | _ => e
         end,
   {| current_namespace := ns;
      calls := calls st ++
        [CallNamespace ns; CallFlow (flow_name obj);
         CallNamespace ns; CallRun (flow_name obj +:+ "/" +:+ run_id)] |}).
Proof.
  intros Hns Hflow Hrun He.
  rewrite (obtain_after_flow obj (Some run_id) ns st flow Hns Hflow).
  unfold check_run_id, try_except, bind, ret, raise, namespace, Run, log. simpl.
  rewrite Hrun, <- !app_assoc. simpl.
  destruct e; try done.
  rewrite ?string_app_assoc. reflexivity.
Qed.

(** X6.  In the namespace-mismatch branch the second lookup, made with
    no namespace, is outside the [try] block: when it raises, its exception
    leaves the resolver as it is, also when it is [MetaflowNotFound] or
    [MetaflowNamespaceMismatch], and the namespace stays unselected. *)
Theorem obtain_second_lookup_raises obj (run_id : string) ns st flow e :
  is_prod_token ns = false →
  Flow_lookup w ns (flow_name obj) = Ok flow →
  Run_lookup w ns (flow_name obj +:+ "/" +:+ run_id) = Raise MetaflowNamespaceMismatch →
  Run_lookup w None (flow_name obj +:+ "/" +:+ run_id) = Raise e →
  obtain_metaflow_run_client w obj (Some run_id) ns st =
  (Raise e,
   {| current_namespace := None;
      calls := calls st ++
        [CallNamespace ns; CallFlow (flow_name obj);
         CallNamespace ns; CallRun (flow_name obj +:+ "/" +:+ run_id);
         CallNamespace None; CallRun (flow_name obj +:+ "/" +:+ run_id)] |}).
Proof.
  intros Hns Hflow Hrun Hrun'.
  rewrite (obtain_after_flow obj (Some run_id) ns st flow Hns Hflow).
  unfold check_run_id, try_except, bind, ret, raise, namespace, Run, log. simpl.
  rewrite Hrun. simpl. rewrite Hrun'. by rewrite <- !app_assoc.
Qed.

End WithWorld.

Lemma obtain_Ok_iff_witness :
  obtain_metaflow_run_client Sample.Tags.world Sample.Tags.obj (Some "7")
    (Some "user:bob") Sample.Tags.start =
  (Ok Sample.Tags.run7,
   {| current_namespace := Some "user:bob";
      calls := [CallNamespace (Some "user:bob"); CallFlow "F";
                CallNamespace (Some "user:bob"); CallRun "F/7"] |}).
Proof.
  apply (proj2 (obtain_Ok_iff Sample.Tags.world Sample.Tags.obj (Some "7")
                  (Some "user:bob") Sample.Tags.start Sample.Tags.run7 _)).
  split; [reflexivity|].
  exists "7", {| latest_run := Some Sample.Tags.run7; runs := [Sample.Tags.run7] |}.
  repeat split; reflexivity.
Defined.

(** No flow [G] exists. *)
Lemma obtain_flow_lookup_raises_witness :
  is_prod_token (Some "user:bob") = false ∧
  Flow_lookup Sample.Tags.world (Some "user:bob") "G" = Raise MetaflowNotFound ∧
  obtain_metaflow_run_client Sample.Tags.world {| flow_name := "G" |} (Some "7")
    (Some "user:bob") Sample.Tags.start =
  (Raise (CommandException
            ("Flow *G* does not exist in any namespace." +:+ newline +:+
             "Please run the flow before tagging.")),
   {| current_namespace := Some "user:bob";
      calls := [CallNamespace (Some "user:bob"); CallFlow "G"] |}).
Proof.
  split; [reflexivity|]. split; [reflexivity|].
  apply (obtain_flow_lookup_raises Sample.Tags.world {| flow_name := "G" |} (Some "7")
           (Some "user:bob") Sample.Tags.start MetaflowNotFound); reflexivity.
Defined.

(** No run [9] exists. *)
Lemma obtain_run_lookup_raises_witness :
  is_prod_token (Some "user:bob") = false ∧
  Run_lookup Sample.Tags.world (Some "user:bob") "F/9" = Raise MetaflowNotFound ∧
  MetaflowNotFound ≠ MetaflowNamespaceMismatch ∧
  obtain_metaflow_run_client Sample.Tags.world Sample.Tags.obj (Some "9")
    (Some "user:bob") Sample.Tags.start =
  (Raise (CommandException
            ("Run *F/9* does not exist in any namespace." +:+ newline +:+
             "Please check your --run-id.")),
   {| current_namespace := Some "user:bob";
      calls := [CallNamespace (Some "user:bob"); CallFlow "F";
                CallNamespace (Some "user:bob"); CallRun "F/9"] |}).
Proof.
  split; [reflexivity|]. split; [reflexivity|]. split; [discriminate|].
  apply (obtain_run_lookup_raises Sample.Tags.world Sample.Tags.obj "9"
           (Some "user:bob") Sample.Tags.start
           {| latest_run := Some Sample.Tags.run7; runs := [Sample.Tags.run7] |}
           MetaflowNotFound); [reflexivity..|discriminate].
Defined.

Lemma obtain_second_lookup_raises_witness :
  is_prod_token (Some "user:bob") = false ∧
  Run_lookup Sample2.unavailable (Some "user:bob") "F/7" = Raise MetaflowNamespaceMismatch ∧
  Run_lookup Sample2.unavailable None "F/7" = Raise (OtherError "service unavailable") ∧
  obtain_metaflow_run_client Sample2.unavailable Sample.Tags.obj (Some "7")
    (Some "user:bob") Sample.Tags.start =
  (Raise (OtherError "service unavailable"),
   {| current_namespace := None;
      calls := [CallNamespace (Some "user:bob"); CallFlow "F";
                CallNamespace (Some "user:bob"); CallRun "F/7";
                CallNamespace None; CallRun "F/7"] |}).
Proof.
  split; [reflexivity|]. split; [reflexivity|]. split; [reflexivity|].
  apply (obtain_second_lookup_raises Sample2.unavailable Sample.Tags.obj "7"
           (Some "user:bob") Sample.Tags.start
           {| latest_run := Some Sample.Tags.run7; runs := [Sample.Tags.run7] |}
           (OtherError "service unavailable")); reflexivity.
Defined.

End ResolverExtras.

(** ** More on listing tags *)

Module ListingExtras.
Import Py PyFacts Tagging TaggingFacts ResolverFacts.

(** The two sets that the loop of [tag_list] collects, from any start. *)
Lemma collected_tags (runs : list RunData) (acc : list string * list string) :
  let sets := foldl (λ (acc : list string * list string) run,
                       (union acc.1 (system_tags run),
                        union acc.2 (difference (tags run) (system_tags run))))
                    acc runs in
  (∀ t, t ∈ sets.1 ↔ t ∈ acc.1 ∨ ∃ run, run ∈ runs ∧ t ∈ system_tags run) ∧
  (∀ t, t ∈ sets.2 ↔
        t ∈ acc.2 ∨ ∃ run, run ∈ runs ∧ t ∈ tags run ∧ t ∉ system_tags run) ∧
  (Forall (λ run, NoDup (tags run) ∧ NoDup (system_tags run)) runs →
   NoDup acc.1 → NoDup acc.2 → NoDup sets.1 ∧ NoDup sets.2).
Proof.
  revert acc. induction runs as [|run runs IH]; intros acc; simpl.
  - split_and!; [| |done].
    + intros t. split; [by left|]. intros [?|(run & Hrun & _)]; [done|].
      by apply elem_of_nil in Hrun.
    + intros t. split; [by left|]. intros [?|(run & Hrun & _)]; [done|].
      by apply elem_of_nil in Hrun.
  - destruct (IH (union acc.1 (system_tags run),
                  union acc.2 (difference (tags run) (system_tags run))))
      as (H1 & H2 & H3). simpl in *.
    split_and!.
    + intros t. rewrite H1. unfold union. rewrite list_elem_of_union. split.
      * intros [[H|H]|(r & Hr & H)]; [by left| |].
        -- right. exists run. split; [apply list_elem_of_here|done].
        -- right. exists r. split; [by apply list_elem_of_further|done].
      * intros [H|(r & Hr & H)]; [by left; left|].
        apply elem_of_cons in Hr as [->|Hr]; [left; by right|].
        right. by exists r.
    + intros t. rewrite H2. unfold union, difference.
      rewrite list_elem_of_union, list_elem_of_difference. split.
      * intros [[H|H]|(r & Hr & H)]; [by left| |].
        -- right. exists run. split; [apply list_elem_of_here|done].
        -- right. exists r. split; [by apply list_elem_of_further|done].
      * intros [H|(r & Hr & H)]; [by left; left|].
        apply elem_of_cons in Hr as [->|Hr]; [left; by right|].
        right. by exists r.
    + intros Hruns Hacc1 Hacc2. apply Forall_cons in Hruns as [[Ht Hs] Hruns].
      apply H3; [done|..]; unfold union, difference.
      * by apply NoDup_list_union.
      * apply NoDup_list_union; [done|]. by apply NoDup_list_difference.
Qed.

Section WithWorld.
Variable w : World.

(** X7.  With exactly one of [--all] and [--my-runs], and the flow found
    under no namespace ([--all]) or under the caller's identity
    ([--my-runs]), [tag list] prints one table and returns.  Its system
    column holds the tags that are a system tag of some run of the flow (or
    nothing with [--hide-system-tags]); its other column holds the tags
    that some run carries without having it as a system tag; each tag is
    listed once when the tags of each run are sets.  The run id is not
    looked up. *)
Theorem tag_list_aggregate obj run_id (hide list_all my_runs : bool) st flow :
  xorb list_all my_runs = true →
  Flow_lookup w (if my_runs then Some (identity w) else None) (flow_name obj) = Ok flow →
  ∃ (S C : list string) (table : string),
    (∀ t, t ∈ S ↔ ∃ run, run ∈ runs flow ∧ t ∈ system_tags run) ∧
    (∀ t, t ∈ C ↔ ∃ run, run ∈ runs flow ∧ t ∈ tags run ∧ t ∉ system_tags run) ∧
    (Forall (λ run, NoDup (tags run) ∧ NoDup (system_tags run)) (runs flow) →
     NoDup S ∧ NoDup C) ∧
    format_tags (if hide then [] else S) C = Ok table ∧
    tag_list w obj run_id hide list_all my_runs st =
    (Ok (),
     {| current_namespace := if my_runs then Some (identity w) else None;
        calls := calls st ++
          [CallNamespace (if my_runs then Some (identity w) else None);
           CallFlow (flow_name obj); CallRuns; CallEcho table] |}).
Proof.
  intros Hxor Hflow.
  pose proof (collected_tags (runs flow) ([], [])) as (H1 & H2 & H3).
  eexists _, _, _. split_and!.
  - intros t. rewrite H1. simpl. rewrite elem_of_nil.
    split; [by intros [[]|?]|by right].
  - intros t. rewrite H2. simpl. rewrite elem_of_nil.
    split; [by intros [[]|?]|by right].
  - intros Hruns. apply H3; [done|constructor..].
  - apply format_tags_eq.
  - unfold tag_list.
    destruct list_all, my_runs; try done; simpl in *.
    + rewrite andb_false_r. simpl.
      unfold list_runs, bind, ret, namespace, Flow, lift, echo, log. simpl.
      rewrite Hflow. simpl.
      destruct hide; rewrite format_tags_eq; simpl; by rewrite <- !app_assoc.
    + rewrite andb_false_r. simpl.
      unfold list_runs, resolve_identity, bind, ret, namespace, Flow, lift, echo, log.
      simpl. rewrite Hflow. simpl.
      destruct hide; rewrite format_tags_eq; simpl; by rewrite <- !app_assoc.
Qed.

(** X8.  On the same path, when the flow lookup raises, [tag list] raises
    that very exception, whichever it is: the lookup is not inside a [try]
    block, so a flow that does not exist gives [MetaflowNotFound] and not
    the error message of the resolver.  Nothing is printed. *)
Theorem tag_list_aggregate_raises obj run_id (hide list_all my_runs : bool) st e :
  xorb list_all my_runs = true →
  Flow_lookup w (if my_runs then Some (identity w) else None) (flow_name obj) = Raise e →
  tag_list w obj run_id hide list_all my_runs st =
  (Raise e,
   {| current_namespace := if my_runs then Some (identity w) else None;
      calls := calls st ++
        [CallNamespace (if my_runs then Some (identity w) else None);
         CallFlow (flow_name obj)] |}).
Proof.
  intros Hxor Hflow. unfold tag_list.
  destruct list_all, my_runs; try done; simpl in *; rewrite andb_false_r; simpl.
  - unfold list_runs, bind, ret, namespace, Flow, log. simpl.
    rewrite Hflow. by rewrite <- !app_assoc.
  - unfold list_runs, resolve_identity, bind, ret, namespace, Flow, log. simpl.
    rewrite Hflow. by rewrite <- !app_assoc.
Qed.

(** Commands that echo nothing. *)
Lemma echoes_app cs cs' : TagCommands.echoes (cs ++ cs') = TagCommands.echoes cs ++ TagCommands.echoes cs'.
Proof. unfold TagCommands.echoes. apply omap_app. Qed.

Lemma silent_ret {A} (a : A) : TagCommands.silent (ret a).
Proof. done. Qed.

Lemma silent_raise {A} e : TagCommands.silent (@raise State A e).
Proof. done. Qed.

Lemma silent_bind {A B} (m : M State A) (k : A → M State B) :
  TagCommands.silent m → (∀ a, TagCommands.silent (k a)) → TagCommands.silent (bind m k).
Proof.
  intros Hm Hk st. unfold bind. specialize (Hm st).
  destruct (m st) as [[a|e] st1]; simpl in *; [|done].
  by rewrite Hk.
Qed.

Lemma silent_try_except {A} (m : M State A) handler :
  TagCommands.silent m → (∀ e, TagCommands.silent (handler e)) → TagCommands.silent (try_except m handler).
Proof.
  intros Hm Hh st. unfold try_except. specialize (Hm st).
  destruct (m st) as [[a|e] st1]; simpl in *; [done|].
  by rewrite Hh.
Qed.

Lemma silent_namespace ns : TagCommands.silent (namespace ns).
Proof. intros st. simpl. rewrite echoes_app. simpl. by rewrite app_nil_r. Qed.

Lemma silent_Flow p : TagCommands.silent (Flow w p).
Proof. intros st. simpl. rewrite echoes_app. simpl. by rewrite app_nil_r. Qed.

Lemma silent_Run p : TagCommands.silent (Run w p).
Proof. intros st. simpl. rewrite echoes_app. simpl. by rewrite app_nil_r. Qed.

Lemma silent_check_run_id ns fn run_id : TagCommands.silent (check_run_id w ns fn run_id).
Proof.
  destruct run_id; [apply silent_ret|].
  apply silent_bind; [apply silent_Flow|].
  intros flow. destruct (latest_run flow); apply silent_raise.
Qed.

(** The resolver TagCommands.echoes nothing. *)
Lemma silent_obtain obj run_id ns : TagCommands.silent (obtain_metaflow_run_client w obj run_id ns).
Proof.
  unfold obtain_metaflow_run_client.
  destruct (is_prod_token ns); [apply silent_raise|].
  apply silent_bind.
  { apply silent_try_except.
    - apply silent_bind; [apply silent_namespace|]. intros _.
      apply silent_bind; [apply silent_Flow|]. intros _. apply silent_ret.
    - intros e. destruct e; apply silent_raise. }
  intros _. apply silent_bind; [apply silent_check_run_id|]. intros _.
  apply silent_try_except.
  - apply silent_bind; [apply silent_namespace|]. intros _. apply silent_Run.
  - intros e. destruct e; try apply silent_raise.
    apply silent_bind; [apply silent_namespace|]. intros _.
    apply silent_bind; [apply silent_Run|]. intros run. simpl.
    destruct (existsb _ _); apply silent_raise.
Qed.

Lemma silent_list_runs obj ns : TagCommands.silent (list_runs w obj ns).
Proof.
  unfold list_runs.
  apply silent_bind; [apply silent_namespace|]. intros _.
  apply silent_bind; [apply silent_Flow|]. intros flow st.
  simpl. rewrite echoes_app. simpl. by rewrite app_nil_r.
Qed.

(** X9.  [tag list] prints only when it succeeds: if it returns, it has
    echoed exactly one text, the last thing it did; if it raises, whatever
    the exception, it has echoed nothing. *)
Theorem tag_list_echoes obj run_id (hide list_all my_runs : bool) st :
  match (tag_list w obj run_id hide list_all my_runs st).1 with
  | Ok _ =>
      ∃ table cs,
        calls (tag_list w obj run_id hide list_all my_runs st).2 = cs ++ [CallEcho table] ∧
        TagCommands.echoes cs = TagCommands.echoes (calls st)
  | Raise _ =>
      TagCommands.echoes (calls (tag_list w obj run_id hide list_all my_runs st).2) = TagCommands.echoes (calls st)
  end.
Proof.
  unfold tag_list.
  destruct (bool_decide (run_id = None) && negb list_all && negb my_runs); [done|].
  destruct (list_all && my_runs); [done|].
  match goal with
  | |- context [bind ?m ?k st] => set (collect := m); set (print := k)
  end.
  assert (TagCommands.silent collect) as Hsilent.
  { unfold collect. destruct (list_all || my_runs).
    - apply silent_bind.
      { destruct my_runs; [|apply silent_ret].
        apply silent_bind; [apply silent_ret|]. intros i. apply silent_ret. }
      intros ns. apply silent_bind; [apply silent_list_runs|]. intros rs.
      apply silent_ret.
    - apply silent_bind; [apply silent_obtain|]. intros run. apply silent_ret. }
  specialize (Hsilent st). unfold bind.
  destruct (collect st) as [[sets|e] st1]; simpl in *; [|done].
  unfold print, bind, lift, echo, log.
  destruct hide; rewrite format_tags_eq; simpl; by eexists _, _.
Qed.

End WithWorld.

Lemma tag_list_aggregate_witness :
  xorb false true = true ∧
  ∃ (S C : list string) (table : string),
    (∀ t, t ∈ S ↔ ∃ run, run ∈ [Sample.Tags.run7] ∧ t ∈ system_tags run) ∧
    (∀ t, t ∈ C ↔ ∃ run, run ∈ [Sample.Tags.run7] ∧ t ∈ tags run ∧ t ∉ system_tags run) ∧
    (Forall (λ run, NoDup (tags run) ∧ NoDup (system_tags run)) [Sample.Tags.run7] →
     NoDup S ∧ NoDup C) ∧
    format_tags S C = Ok table ∧
    tag_list {| Flow_lookup := Flow_lookup Sample.Tags.world;
                Run_lookup := Run_lookup Sample.Tags.world;
                identity := "user:bob" |}
      Sample.Tags.obj None false false true Sample.Tags.start =
    (Ok (),
     {| current_namespace := Some "user:bob";
        calls := [CallNamespace (Some "user:bob"); CallFlow "F"; CallRuns;
                  CallEcho table] |}).
Proof.
  split; [reflexivity|].
  apply (tag_list_aggregate
           {| Flow_lookup := Flow_lookup Sample.Tags.world;
              Run_lookup := Run_lookup Sample.Tags.world;
              identity := "user:bob" |}
           Sample.Tags.obj None false false true Sample.Tags.start
           {| latest_run := Some Sample.Tags.run7; runs := [Sample.Tags.run7] |});
    reflexivity.
Defined.

(** The caller [alice] has no run of [F]: [--my-runs] ends in the
    exception of the client. *)
Lemma tag_list_aggregate_raises_witness :
  xorb false true = true ∧
  Flow_lookup Sample.Tags.world (Some "user:alice") "F" = Raise MetaflowNamespaceMismatch ∧
  tag_list Sample.Tags.world Sample.Tags.obj None false false true Sample.Tags.start =
  (Raise MetaflowNamespaceMismatch,
   {| current_namespace := Some "user:alice";
      calls := [CallNamespace (Some "user:alice"); CallFlow "F"] |}).
Proof.
  split; [reflexivity|]. split; [reflexivity|].
  apply (tag_list_aggregate_raises Sample.Tags.world Sample.Tags.obj None false false true
           Sample.Tags.start MetaflowNamespaceMismatch); reflexivity.
Defined.

End ListingExtras.

(** ** Adding, removing and replacing tags *)

Module TagCommandFacts.
Import Py PyFacts Tagging TaggingFacts TagCommands.

(** [print_tags] returns. *)
Lemma print_tags_Ok run : ∃ table, print_tags run = Ok table.
Proof. unfold print_tags. rewrite format_tags_eq. by eexists. Qed.

(** What the three sub-commands do, in terms of the resolver, the method
    and the table. *)
Lemma tag_run w c obj run_id ns st :
  tag w c obj run_id ns st =
  match obtain_metaflow_run_client (client w) obj run_id (effective_namespace w ns)
          (session st) with
  | (Raise e, s1) => (Raise e, {| session := s1; method_calls := method_calls st |})
  | (Ok run, s1) =>
      match call_method w run (method_of c) with
      | Raise e =>
          (Raise e, {| session := s1;
                       method_calls := method_calls st ++ [(run, method_of c)] |})
      | Ok run' =>
          match print_tags run' with
          | Raise e =>
              (Raise e,
               {| session := log (CallEcho "Operation successful. New tags:") s1;
                  method_calls := method_calls st ++ [(run, method_of c)] |})
          | Ok table =>
              (Ok (),
               {| session := log (CallEcho table)
                               (log (CallEcho "Operation successful. New tags:") s1);
                  method_calls := method_calls st ++ [(run, method_of c)] |})
          end
      end
  end.
Proof.
  destruct c, ns as [ns|]; simpl;
    unfold add, remove, replace, default_namespace, bind, ret, on_session,
      resolve_identity, invoke, lift, echo; simpl;
    (destruct (obtain_metaflow_run_client _ _ _ _ _) as [[run|e] s1]; simpl; [|done]);
    (destruct (call_method w run _) as [run'|e]; simpl; [|done]);
    by destruct (print_tags run').
Qed.

(** X10.  [tag add], [tag remove] and [tag replace] resolve the run under
    [--namespace], or under the caller's identity when the option is not
    given.  When that namespace starts with ["production:"], also when it
    is the caller's own identity, the command raises the error that forbids
    the change and nothing else happens: no lookup, no method call, no
    echo. *)
Theorem tag_production_namespace w c obj run_id ns st :
  is_prod_token (effective_namespace w ns) = true →
  tag w c obj run_id ns st = (Raise (CommandException scheduled_run_msg), st).
Proof.
  intros Hns. rewrite tag_run. unfold obtain_metaflow_run_client.
  rewrite Hns. simpl. by destruct st.
Qed.

(** X11.  The three sub-commands call at most one method on a run, the
    one that goes with the sub-command ([replace] with the one-element
    lists of its two arguments).  They call it only on a run that the
    resolver returned: a run id was given, the namespace used does not
    start with ["production:"], and the flow and that run were found under
    it. *)
Theorem tag_method_calls w c obj run_id ns st :
  method_calls (tag w c obj run_id ns st).2 = method_calls st ∨
  ∃ r flow run,
    run_id = Some r ∧
    is_prod_token (effective_namespace w ns) = false ∧
    Flow_lookup (client w) (effective_namespace w ns) (flow_name obj) = Ok flow ∧
    Run_lookup (client w) (effective_namespace w ns) (flow_name obj +:+ "/" +:+ r) = Ok run ∧
    method_calls (tag w c obj run_id ns st).2 = method_calls st ++ [(run, method_of c)].
Proof.
  rewrite tag_run.
  destruct (obtain_metaflow_run_client _ _ _ _ _) as [[run|e] s1] eqn:Hobtain;
    [|by left].
  right.
  apply ResolverExtras.obtain_Ok_spec in Hobtain as (Hns & r & flow & -> & Hflow & Hrun & _).
  exists r, flow, run. split_and!; try done.
  destruct (call_method w run (method_of c)) as [run'|e]; [|done].
  by destruct (print_tags run').
Qed.

(** X12.  When the run is resolved, the sub-command calls its method on
    it.  If the call returns, the command echoes
    ["Operation successful. New tags:"] and then the table of the tags that
    the run shows after the call, and returns.  If the call raises, the
    command raises the same exception and echoes nothing. *)
Theorem tag_resolved w c obj (run_id : string) ns st flow run :
  is_prod_token (effective_namespace w ns) = false →
  Flow_lookup (client w) (effective_namespace w ns) (flow_name obj) = Ok flow →
  Run_lookup (client w) (effective_namespace w ns) (flow_name obj +:+ "/" +:+ run_id)
    = Ok run →
  match call_method w run (method_of c) with
  | Ok run' =>
      ∃ table,
        format_tags (system_tags run') (difference (tags run') (system_tags run'))
          = Ok table ∧
        tag w c obj (Some run_id) ns st =
        (Ok (),
         {| session :=
              {| current_namespace := effective_namespace w ns;
                 calls := calls (session st) ++
                   [CallNamespace (effective_namespace w ns); CallFlow (flow_name obj);
                    CallNamespace (effective_namespace w ns);
                    CallRun (flow_name obj +:+ "/" +:+ run_id);
                    CallEcho "Operation successful. New tags:"; CallEcho table] |};
            method_calls := method_calls st ++ [(run, method_of c)] |})
  | Raise e =>
      tag w c obj (Some run_id) ns st =
      (Raise e,
       {| session :=
            {| current_namespace := effective_namespace w ns;
               calls := calls (session st) ++
                 [CallNamespace (effective_namespace w ns); CallFlow (flow_name obj);
                  CallNamespace (effective_namespace w ns);
                  CallRun (flow_name obj +:+ "/" +:+ run_id)] |};
          method_calls := method_calls st ++ [(run, method_of c)] |})
  end.
Proof.
  intros Hns Hflow Hrun. rewrite tag_run.
  rewrite (proj2 (ResolverExtras.obtain_Ok_spec (client w) obj (Some run_id)
                    (effective_namespace w ns) (session st) run _)
             (conj Hns (ex_intro _ run_id (ex_intro _ flow
                (conj eq_refl (conj Hflow (conj Hrun eq_refl))))))).
  destruct (call_method w run (method_of c)) as [run'|e]; [|done].
  eexists. split; [apply format_tags_eq|].
  unfold print_tags. rewrite format_tags_eq. unfold log. simpl.
  by rewrite <- !app_assoc.
Qed.

(** X13.  The three sub-commands print only when they succeed: if the
    command returns, it has echoed ["Operation successful. New tags:"] and
    one table, in this order and nothing else; if it raises, it has echoed
    nothing. *)
Theorem tag_echoes w c obj run_id ns st :
  match (tag w c obj run_id ns st).1 with
  | Ok _ =>
      ∃ table,
        echoes (calls (session (tag w c obj run_id ns st).2)) =
        echoes (calls (session st)) ++ ["Operation successful. New tags:"; table]
  | Raise _ =>
      echoes (calls (session (tag w c obj run_id ns st).2)) = echoes (calls (session st))
  end.
Proof.
  rewrite tag_run.
  pose proof (ListingExtras.silent_obtain (client w) obj run_id
                (effective_namespace w ns) (session st)) as Hsilent.
  destruct (obtain_metaflow_run_client _ _ _ _ _) as [[run|e] s1]; simpl in *; [|done].
  destruct (call_method w run (method_of c)) as [run'|e]; simpl; [|done].
  destruct (print_tags_Ok run') as [table ->]. simpl.
  exists table. rewrite !ListingExtras.echoes_app, Hsilent. simpl.
  by rewrite <- app_assoc.
Qed.

Lemma tag_production_namespace_witness :
  is_prod_token (effective_namespace Sample2.world (Some "production:F-0-abcd")) = true ∧
  tag Sample2.world (Add ["extra"]) Sample.Tags.obj (Some "8")
    (Some "production:F-0-abcd") Sample2.start =
  (Raise (CommandException scheduled_run_msg), Sample2.start).
Proof.
  split; [reflexivity|].
  apply (tag_production_namespace Sample2.world (Add ["extra"]) Sample.Tags.obj (Some "8")
           (Some "production:F-0-abcd") Sample2.start). reflexivity.
Defined.

(** [tag replace --run-id 7 --namespace user:bob stage:dev stage:prod] *)
Lemma tag_resolved_witness :
  is_prod_token (effective_namespace Sample2.world (Some "user:bob")) = false ∧
  Run_lookup (client Sample2.world) (Some "user:bob") "F/7" = Ok Sample.Tags.run7 ∧
  ∃ table,
    format_tags ["runtime:dev"] ["user:bob"; "stage:prod"] = Ok table ∧
    tag Sample2.world (Replace ("stage:dev", "stage:prod")) Sample.Tags.obj (Some "7")
      (Some "user:bob") Sample2.start =
    (Ok (),
     {| session :=
          {| current_namespace := Some "user:bob";
             calls := [CallNamespace (Some "user:bob"); CallFlow "F";
                       CallNamespace (Some "user:bob"); CallRun "F/7";
                       CallEcho "Operation successful. New tags:"; CallEcho table] |};
        method_calls :=
          [(Sample.Tags.run7, replace_tag ["stage:dev"] ["stage:prod"])] |}).
Proof.
  split; [reflexivity|]. split; [reflexivity|].
  apply (tag_resolved Sample2.world (Replace ("stage:dev", "stage:prod")) Sample.Tags.obj
           "7" (Some "user:bob") Sample2.start
           {| latest_run := Some Sample.Tags.run7; runs := [Sample.Tags.run7] |}
           Sample.Tags.run7); reflexivity.
Defined.

End TagCommandFacts.

(** ** More on exporting the DAG *)

Module AirflowExtras.
Import Py PyFacts AirflowCli AirflowFacts.

Section WithWorld.
Variable w : World.

(** What [resolve_dag_name] returns does not depend on the state. *)
Lemma resolve_dag_name_result name st st' :
  (resolve_dag_name w name st).1 = (resolve_dag_name w name st').1.
Proof.
  unfold resolve_dag_name.
  destruct (truthy (project_name (current w))), (truthy name); simpl; try done.
  by destruct (VALID_NAME_search _).
Qed.

(** X14.  When [resolve_dag_name] returns a name and the project flag, it
    has changed nothing; the flag tells whether a project is active.  With
    a project, no name was given and the name returned is the project's
    flow name.  Without a project, either a name was given, it is returned
    as it is and each of its characters is a letter, a digit, [_], [-] or
    [.], or no name was given and the flow's own name is returned (this one
    without a check of its characters). *)
Theorem resolve_dag_name_returns name st dag_name is_project st' :
  resolve_dag_name w name st = (Ok (dag_name, is_project), st') →
  st' = st ∧
  is_project = truthy (project_name (current w)) ∧
  if is_project then
    truthy name = false ∧ dag_name = project_flow_name (current w)
  else
    (truthy name = true ∧ name = Some dag_name ∧
     ∀ c, c ∈ String.list_ascii_of_string dag_name → name_char c = true) ∨
    (truthy name = false ∧ dag_name = flow_name (current w)).
Proof.
  unfold resolve_dag_name.
  destruct (truthy (project_name (current w))) eqn:Hp.
  - destruct (truthy name) eqn:Hn; [done|]. by intros [= <- <- <-].
  - destruct (truthy name) eqn:Hn; simpl.
    + destruct (VALID_NAME_search _) eqn:Hv; [done|].
      intros [= <- <- <-]. split_and!; try done. left.
      destruct name as [[|a name]|]; try done. simpl in *.
      split_and!; try done. intros c Hc.
      unfold VALID_NAME_search in Hv.
      destruct (name_char c) eqn:Hchar; [done|].
      assert (existsb (λ c, negb (name_char c))
                (String.list_ascii_of_string (String a name)) = true) as Hex.
      { apply existsb_exists. exists c. split; [by apply list_elem_of_In|].
        by rewrite Hchar. }
      by rewrite Hex in Hv.
    + intros [= <- <- <-]. split_and!; try done. by right.
Qed.

(** X15.  When the decorators are attached and initialised, the package
    is built and uploaded, and the name resolves, [make_flow] returns the
    [Airflow] object built from the resolved name and project flag, the URL
    and the hash that the upload of this very package returned, the caller's
    user name and the options as given; it has called the collaborators in
    this order.  The argument [is_project] plays no part: the flag is the
    one that [resolve_dag_name] returns. *)
Theorem make_flow_returns name tags ns mw ip fp wp sa st blob url sha dag_name is_project :
  attach_decorators w = Ok () →
  init_step_decorators w = Ok () →
  package_blob w = Ok blob →
  save_data w blob = Ok (url, sha) →
  (resolve_dag_name w name st).1 = Ok (dag_name, is_project) →
  let flow := {| name := dag_name; package_sha := sha; package_url := url;
                 tags := tags; namespace := ns; max_workers := mw;
                 worker_pool := wp; username := get_username w;
                 is_project := is_project; file_path := fp; set_active := sa |} in
  make_flow w name tags ns mw ip fp wp sa st =
  (Ok flow,
   {| calls := calls st ++ [CallAttachDecorators; CallInitStepDecorators;
                            CallMetaflowPackage; CallSaveData blob; CallAirflow flow];
      files := files st; objects := objects st |}).
Proof.
  intros Ha Hi Hb Hs Hr flow.
  unfold make_flow, bind, external, log. simpl. rewrite Ha, Hi, Hb, Hs.
  match goal with
  | |- context [resolve_dag_name w name ?s] =>
      pose proof (resolve_dag_name_state w name s) as Hst;
      pose proof (resolve_dag_name_result name s st) as Hres;
      destruct (resolve_dag_name w name s) as [r st1]
  end.
  simpl in *. subst st1. rewrite Hr in Hres. subst r. simpl.
  by rewrite <- !app_assoc.
Qed.

(** X19.  Without a project, a name that is not empty and is made of
    letters, digits, [_], [-] and [.] only is accepted: [resolve_dag_name]
    returns it unchanged, with the project flag off, and changes nothing. *)
Theorem resolve_dag_name_accepts (name : string) st :
  truthy (project_name (current w)) = false →
  name ≠ "" →
  (∀ c, c ∈ String.list_ascii_of_string name → name_char c = true) →
  resolve_dag_name w (Some name) st = (Ok (name, false), st).
Proof.
  intros Hp Hne Hchars. unfold resolve_dag_name. rewrite Hp.
  assert (truthy (Some name) = true) as ->.
  { by destruct name. }
  assert (VALID_NAME_search name = false) as Hv.
  { unfold VALID_NAME_search. apply not_true_is_false.
    intros (c & Hc & Hchar)%existsb_exists.
    apply list_elem_of_In in Hc. by rewrite (Hchars c Hc) in Hchar. }
  simpl. by rewrite Hv.
Qed.

(** The calls of [make_flow] are none of the output calls. *)
Lemma make_flow_calls name tags ns mw ip fp wp sa st :
  ∃ cs,
    calls (make_flow w name tags ns mw ip fp wp sa st).2 = calls st ++ cs ∧
    existsb AirflowCalls.output_call cs = false.
Proof.
  unfold make_flow, bind, external, log.
  destruct (attach_decorators w) as [[]|e];
    [|by exists [CallAttachDecorators]].
  destruct (init_step_decorators w) as [[]|e];
    [|exists [CallAttachDecorators; CallInitStepDecorators]; simpl;
      by rewrite <- !app_assoc].
  destruct (package_blob w) as [blob|e];
    [|exists [CallAttachDecorators; CallInitStepDecorators; CallMetaflowPackage]; simpl;
      by rewrite <- !app_assoc].
  destruct (save_data w blob) as [saved|e];
    [|exists [CallAttachDecorators; CallInitStepDecorators;
              CallMetaflowPackage; CallSaveData blob]; simpl;
      by rewrite <- !app_assoc].
  unfold resolve_dag_name, raise, ret.
  destruct (truthy (project_name (current w)));
    [destruct (truthy name)
    |destruct (truthy name && VALID_NAME_search (default "" name))];
    simpl; eexists; rewrite <- !app_assoc; simpl; (split; [reflexivity|done]).
Qed.

(** X16.  [create] makes its output calls only after the compiler has
    returned.  When [make_flow] raises, [create] raises the same exception
    and makes no call of its own.  When the compiler raises, [create]
    raises the same exception and its one call is the call to the compiler.
    In both cases none of the calls made since the start echoes the
    artifact, puts it to S3, or opens or writes a file; the calls of
    [make_flow], the upload of the package among them, may have been
    made. *)
Theorem create_stops_before_output fp tags name sa ns mw wp st :
  (∀ e st1,
     make_flow w name tags ns mw false fp wp sa st = (Raise e, st1) →
     create w fp tags name sa ns mw wp st = (Raise e, st1) ∧
     ∃ cs, calls st1 = calls st ++ cs ∧ existsb AirflowCalls.output_call cs = false) ∧
  (∀ flow st1 e,
     make_flow w name tags ns mw false fp wp sa st = (Ok flow, st1) →
     compile w flow = Raise e →
     create w fp tags name sa ns mw wp st = (Raise e, log (CallCompile flow) st1) ∧
     ∃ cs, calls (log (CallCompile flow) st1) = calls st ++ cs ∧
           existsb AirflowCalls.output_call cs = false).
Proof.
  destruct (make_flow_calls name tags ns mw false fp wp sa st) as (cs & Hcalls & Hcs).
  split.
  - intros e st1 Hmake. rewrite Hmake in Hcalls.
    split; [|by exists cs]. unfold create, bind. by rewrite Hmake.
  - intros flow st1 e Hmake Hcompile. rewrite Hmake in Hcalls. simpl in Hcalls.
    split.
    + unfold create, bind, external. by rewrite Hmake, Hcompile.
    + exists (cs ++ [CallCompile flow]). simpl. rewrite Hcalls, <- app_assoc.
      split; [done|]. rewrite existsb_app, Hcs. done.
Qed.

(** X17.  Without a project, a name with a character other than a
    letter, a digit, [_], [-] or [.] makes [create] fail with the error
    that quotes the name; as the name is checked inside [make_flow] after
    the upload, the decorators have been attached and the package built and
    uploaded by then (when these steps succeed), and the compiler is not
    called. *)
Theorem create_invalid_name fp tags (name : string) sa ns mw wp st blob saved :
  truthy (project_name (current w)) = false →
  truthy (Some name) = true →
  VALID_NAME_search name = true →
  attach_decorators w = Ok () →
  init_step_decorators w = Ok () →
  package_blob w = Ok blob →
  save_data w blob = Ok saved →
  create w fp tags (Some name) sa ns mw wp st =
  (Raise (MetaflowException ("Name '" +:+ name +:+ "' contains invalid characters.")),
   {| calls := calls st ++ [CallAttachDecorators; CallInitStepDecorators;
                            CallMetaflowPackage; CallSaveData blob];
      files := files st; objects := objects st |}).
Proof.
  intros Hp Hn Hv Ha Hi Hb Hs.
  unfold create, make_flow, bind, external, log. simpl.
  rewrite Ha, Hi, Hb, Hs. unfold resolve_dag_name. rewrite Hp, Hn. simpl.
  rewrite Hv. simpl. by rewrite <- !app_assoc.
Qed.

End WithWorld.

Lemma resolve_dag_name_returns_witness :
  resolve_dag_name (Sample.Dag.world None) (Some "nightly-2.run_1") Sample.Dag.start =
    (Ok ("nightly-2.run_1", false), Sample.Dag.start) ∧
  ((truthy (Some "nightly-2.run_1") = true ∧
    Some "nightly-2.run_1" = Some "nightly-2.run_1" ∧
    ∀ c, c ∈ String.list_ascii_of_string "nightly-2.run_1" → name_char c = true) ∨
   (truthy (Some "nightly-2.run_1") = false ∧ "nightly-2.run_1" = "F")).
Proof.
  split; [reflexivity|].
  apply (resolve_dag_name_returns (Sample.Dag.world None) (Some "nightly-2.run_1")
           Sample.Dag.start "nightly-2.run_1" false Sample.Dag.start eq_refl).
Defined.

Lemma resolve_dag_name_accepts_witness :
  "A-z_0.9" ≠ "" ∧
  resolve_dag_name (Sample.Dag.world None) (Some "A-z_0.9") Sample.Dag.start =
  (Ok ("A-z_0.9", false), Sample.Dag.start).
Proof.
  split; [discriminate|].
  apply (resolve_dag_name_accepts (Sample.Dag.world None) "A-z_0.9" Sample.Dag.start);
    [reflexivity|discriminate|].
  intros c Hc. apply list_elem_of_In in Hc. simpl in Hc.
  repeat (destruct Hc as [<-|Hc]; [reflexivity|]). destruct Hc.
Defined.

Lemma make_flow_returns_witness :
  make_flow (Sample.Dag.world None) None [] None 100 true (Some "dag.py") None false
    Sample.Dag.start =
  (Ok (Sample.Dag.flow (Some "dag.py")), Sample.Dag.made (Some "dag.py")).
Proof.
  apply (make_flow_returns (Sample.Dag.world None) None [] None 100 true (Some "dag.py")
           None false Sample.Dag.start "blob" "s3://datastore/F/data/ab/abcd" "abcd"
           "F" false); reflexivity.
Defined.

(** The compiler fails: the calls end with the call to it. *)
Lemma create_stops_before_output_witness :
  compile Sample3.world (Sample3.flow "nightly" (Some "dag.py")) =
    Raise (OtherError "unsupported step") ∧
  create Sample3.world (Some "dag.py") ["team:x"] (Some "nightly") true
    (Some "user:alice") 100 None Sample.Dag.start =
  (Raise (OtherError "unsupported step"),
   {| calls := [CallAttachDecorators; CallInitStepDecorators; CallMetaflowPackage;
                CallSaveData "blob";
                CallAirflow (Sample3.flow "nightly" (Some "dag.py"));
                CallCompile (Sample3.flow "nightly" (Some "dag.py"))];
      files := files Sample.Dag.start; objects := objects Sample.Dag.start |}).
Proof.
  split; [reflexivity|].
  apply (proj2 (create_stops_before_output Sample3.world (Some "dag.py") ["team:x"]
                  (Some "nightly") true (Some "user:alice") 100 None Sample.Dag.start)
           (Sample3.flow "nightly" (Some "dag.py"))
           {| calls := [CallAttachDecorators; CallInitStepDecorators; CallMetaflowPackage;
                        CallSaveData "blob";
                        CallAirflow (Sample3.flow "nightly" (Some "dag.py"))];
              files := files Sample.Dag.start; objects := objects Sample.Dag.start |}
           (OtherError "unsupported step")); reflexivity.
Defined.

Lemma create_invalid_name_witness :
  truthy (Some "my dag") = true ∧ VALID_NAME_search "my dag" = true ∧
  create (Sample.Dag.world None) None [] (Some "my dag") false None 100 None
    Sample.Dag.start =
  (Raise (MetaflowException "Name 'my dag' contains invalid characters."),
   {| calls := [CallAttachDecorators; CallInitStepDecorators;
                CallMetaflowPackage; CallSaveData "blob"];
      files := files Sample.Dag.start; objects := objects Sample.Dag.start |}).
Proof.
  split; [reflexivity|]. split; [reflexivity|].
  apply (create_invalid_name (Sample.Dag.world None) None [] "my dag" false None 100 None
           Sample.Dag.start "blob" ("s3://datastore/F/data/ab/abcd", "abcd"));
    reflexivity.
Defined.

End AirflowExtras.
